(** * stopbrowsing: the redirect responder [lib/redirect_server.py]

    A shallow embedding of the script and of the parts of Python's
    [http.server] and [socketserver] it drives (CPython 3.11), followed by
    the properties of the responder: which reply every GET receives, what is
    printed, in which order the start-up steps happen and how the process
    ends.

    Conventions.
    - A Python [str] whose code points are below 256 (a request line is
      decoded as iso-8859-1) is a Rocq [string].
    - The process is a state-and-exception monad [M]: the state holds the
      working directory and the effects performed so far, in order.
    - The accept loop never returns by itself.  It is run on the
      connections that are observed and on how the observation ends: with
      the loop still blocked in [select], which is the result [Blocked], or
      with SIGINT delivered there.
    - Pure helpers of the standard library whose internals play no role here
      (date formatting, MIME table, percent decoding, HTML of error pages) are
      fields of the record [Lib]; the [int] builtin and the operating system
      are the record [Env].

    Where the model stops.
    - A connection delivers one request that [parse_request] accepted; the
      replies to malformed request lines are not modelled.
    - A connection either delivers such a request, or is closed by the
      peer before it sends anything, or fails with a socket error while
      the request line is read or while the reply is written; in the last
      two cases the handler raises [OSError] into [socketserver], whose
      [handle_error] reports it on standard error.  A reply cut short by
      such an error is not counted as a reply.
    - SIGINT is delivered while [serve_forever] waits between two
      connections, and the observation of a run ends there.  A signal that
      lands during start-up, inside a request, in the [except] body or while
      the interpreter shuts down is not modelled.
    - A [response] is what the handler hands to [send_response],
      [send_header] and [wfile.write]; how it is framed on the wire (nothing
      but the body for an HTTP/0.9 request) is not modelled.
    - The file system does not change during a run. *)

From Stdlib Require Import String Ascii List ZArith Bool Lia DecimalString.
Import ListNotations.
Local Open Scope list_scope.
Local Open Scope string_scope.

(** ** Python's [str] methods used by the code *)
Module PyStr.

Definition slash : ascii := "/"%char.
Definition dquote : string := String "034"%char EmptyString.

(** [s.endswith(suf)] *)
Fixpoint endswith (s suf : string) : bool :=
  (s =? suf) ||
  match s with
  | EmptyString => false
  | String _ s' => endswith s' suf
  end.

(** [c in s] for a one-character [c] *)
Fixpoint contains (c : ascii) (s : string) : bool :=
  match s with
  | EmptyString => false
  | String a s' => Ascii.eqb a c || contains c s'
  end.

(** [s.split(c, 1)[0]]: what precedes the first [c] *)
Fixpoint before (c : ascii) (s : string) : string :=
  match s with
  | EmptyString => EmptyString
  | String a s' => if Ascii.eqb a c then EmptyString else String a (before c s')
  end.

(** [s.split(c)] *)
Fixpoint split (c : ascii) (s : string) : list string :=
  match s with
  | EmptyString => [EmptyString]
  | String a s' =>
      if Ascii.eqb a c then EmptyString :: split c s'
      else match split c s' with
           | w :: ws => String a w :: ws
           | [] => [String a EmptyString]
           end
  end.

(** [str.isspace] on code points below 256 *)
Definition isspace (a : ascii) : bool :=
  let n := nat_of_ascii a in
  ((9 <=? n)%nat && (n <=? 13)%nat) || ((28 <=? n)%nat && (n <=? 32)%nat)
  || (n =? 133)%nat || (n =? 160)%nat.

(** [s.rstrip()] *)
Fixpoint rstrip (s : string) : string :=
  match s with
  | EmptyString => EmptyString
  | String a s' =>
      match rstrip s' with
      | EmptyString => if isspace a then EmptyString else String a EmptyString
      | r => String a r
      end
  end.

(** [s.lower()] on code points below 256: A-Z, and the Latin-1 capitals
    192-222 without the multiplication sign 215 *)
Definition lower_ascii (a : ascii) : ascii :=
  let n := nat_of_ascii a in
  if ((65 <=? n)%nat && (n <=? 90)%nat)
     || ((192 <=? n)%nat && (n <=? 222)%nat && negb (n =? 215)%nat)
  then ascii_of_nat (n + 32) else a.

Fixpoint lower (s : string) : string :=
  match s with
  | EmptyString => EmptyString
  | String a s' => String (lower_ascii a) (lower s')
  end.

(** [str(n)] for an [int] *)
Definition of_Z (n : Z) : string := NilZero.string_of_int (Z.to_int n).

(** [str(n)] for a length *)
Definition of_nat (n : nat) : string := NilZero.string_of_uint (Nat.to_uint n).

End PyStr.

(** ** The Python process: exceptions, effects, the monad [M] *)

(** The exceptions that can travel through [main]. *)
Inductive exn : Type :=
| SystemExit (code : Z)        (* sys.exit(code) *)
| ValueError                   (* int() on a string that is no integer *)
| OSError                      (* os.chdir, socket.bind, listen *)
| OverflowError                (* socket.bind: port outside 0..65535 *)
| KeyboardInterrupt.           (* SIGINT delivered to the main thread *)

(** A reply as the handler produces it: the status given to
    [send_response], the headers in the order of [send_header], and the
    bytes written after [end_headers]. *)
Record response : Type := mkResponse {
  status : Z;
  reason : string;
  resp_headers : list (string * string);
  body : string
}.

(** What the process does to the outside, in order. *)
Inductive effect : Type :=
| Stdout (line : string)               (* print(line) *)
| Stderr (line : string)               (* sys.stderr.write(line + newline) *)
| Traceback (e : exn)                  (* the report of an uncaught exception *)
| Chdir (dir : string)                 (* os.chdir(dir) called *)
| Bind (host : string) (port : Z)      (* socket.bind((host, port)) called *)
| Listen                               (* socket.listen *)
| Reply (r : response)                 (* a reply written to an accepted connection *)
| ErrorBlock (e : exn)                 (* handle_error on standard error: dashes,
                                          the client, the traceback of e, dashes *)
| Close.                               (* server_close() *)

(** Result of a computation: a value, a raised exception, or still blocked
    in the accept loop when the observed input ends. *)
Inductive result (A : Type) : Type :=
| Ret (a : A)
| Raise (e : exn)
| Blocked.
Arguments Ret {A} a.
Arguments Raise {A} e.
Arguments Blocked {A}.

(** Process state: the working directory ([os.getcwd()]) and the effects so
    far, oldest first. *)
Record proc : Type := mkProc {
  cwd : string;
  trace : list effect
}.

Definition M (A : Type) : Type := proc -> result A * proc.

Definition ret {A} (a : A) : M A := fun s => (Ret a, s).

Definition bind {A B} (m : M A) (k : A -> M B) : M B :=
  fun s =>
    match m s with
    | (Ret a, s') => k a s'
    | (Raise e, s') => (Raise e, s')
    | (Blocked, s') => (Blocked, s')
    end.

Definition raise {A} (e : exn) : M A := fun s => (Raise e, s).

Definition emit (ev : effect) : M unit :=
  fun s => (Ret tt, mkProc (cwd s) (trace s ++ [ev])).

Definition emits (evs : list effect) : M unit :=
  fun s => (Ret tt, mkProc (cwd s) (trace s ++ evs)).

Definition getcwd : M string := fun s => (Ret (cwd s), s).

Definition setcwd (d : string) : M unit :=
  fun s => (Ret tt, mkProc d (trace s)).

(** [try: m  except KeyboardInterrupt: h] *)
Definition try_except_KeyboardInterrupt (m : M unit) (h : M unit) : M unit :=
  fun s =>
    match m s with
    | (Raise KeyboardInterrupt, s') => h s'
    | r => r
    end.

(** The exceptions [except Exception] catches: all but [SystemExit] and
    [KeyboardInterrupt]. *)
Definition is_Exception (e : exn) : bool :=
  match e with
  | SystemExit _ | KeyboardInterrupt => false
  | _ => true
  end.

(** [try: m  except Exception: h] *)
Definition try_except_Exception (m : M unit) (h : exn -> M unit) : M unit :=
  fun s =>
    match m s with
    | (Raise e, s') => if is_Exception e then h e s' else (Raise e, s')
    | r => r
    end.

(** [try: m  finally: h], for a handler [h] that does not raise: the shape
    of [with ctx: m], whose [__exit__] runs on the way out, normal or not. *)
Definition finally {A} (m : M A) (h : M unit) : M A :=
  fun s =>
    match m s with
    | (Ret a, s') => (Ret a, snd (h s'))
    | (Raise e, s') => (Raise e, snd (h s'))
    | (Blocked, s') => (Blocked, s')
    end.

Declare Scope py_scope.
Delimit Scope py_scope with py.
Notation "x <- m ;; k" := (bind m (fun x => k))
  (at level 61, m at next level, right associativity) : py_scope.
Notation "m ;; k" := (bind m (fun _ => k))
  (at level 61, right associativity) : py_scope.
Local Open Scope py_scope.

(** [print(line)] *)
Definition print (line : string) : M unit := emit (Stdout line).

(** [sys.exit(code)] *)
Definition sys_exit {A} (code : Z) : M A := raise (SystemExit code).

(** ** The environment *)

(** What a path names on disk. *)
Inductive fs_entry : Type :=
| Absent
| RegularFile (readable : bool) (mtime : Z) (content : string)
| Directory (listing : option (list string)).
    (* [None]: os.listdir raises OSError *)

(** The surroundings of the script: the [int] builtin, kept abstract, and
    the operating system. *)
Record Env : Type := mkEnv {
  int_of_str : string -> option Z;     (* int(s); None: ValueError *)
  chdir_to : string -> string -> option string;
                                       (* os.chdir(d) in the directory given
                                          first; Some c: succeeds and
                                          os.getcwd() is then c; None: OSError *)
  stat : string -> fs_entry;           (* isdir, isfile, open, os.fstat *)
  bindable : string -> Z -> bool       (* the address is free and permitted *)
}.

(** Pure helpers of the standard library. *)
Record Lib : Type := mkLib {
  version_string : string;                  (* server_version + ' ' + sys_version *)
  date_time_string : Z -> string;           (* email.utils.formatdate(t, usegmt=True) *)
  log_date_time_string : Z -> string;
  escape_control : string -> string;        (* message.translate(_control_char_table) *)
  reason_phrase : Z -> string;              (* responses[code][0] *)
  error_page : Z -> string -> string;       (* error_message_format, filled in *)
  guess_type : string -> string;            (* extensions_map, then mimetypes *)
  parsedate_utc : string -> option Z;       (* parsedate_to_datetime; Some t when the
                                               date is naive or in UTC, in seconds *)
  unquote_escapes : string -> string;       (* unquote of a string with % *)
  urlsplit_path : string -> string;         (* urllib.parse.urlsplit(p).path *)
  url_add_slash : string -> string;         (* urlunsplit, '/' added to the path *)
  listing_page : string -> list string -> string;  (* the HTML of list_directory *)
  py_repr : string -> string;               (* '%r' % s *)
  fs_encoding : string                      (* sys.getfilesystemencoding() *)
}.

(** ** [posixpath] and [urllib.parse] *)
Module posixpath.

(** [os.path.join(a, b)] *)
Definition join (a b : string) : string :=
  if String.prefix "/" b then b
  else if (a =? "") || PyStr.endswith a "/" then a ++ b
  else a ++ "/" ++ b.

(** One turn of the loop of [normpath]; [new_comps] is kept last-first. *)
Definition norm_step (initial_slashes : nat) (new_comps : list string)
    (comp : string) : list string :=
  if (comp =? "") || (comp =? ".") then new_comps
  else if negb (comp =? "..")
          || ((initial_slashes =? 0)%nat && (length new_comps =? 0)%nat)
          || match new_comps with c :: _ => c =? ".." | [] => false end
       then comp :: new_comps
       else match new_comps with _ :: r => r | [] => [] end.

(** [posixpath.normpath(path)] *)
Definition normpath (path : string) : string :=
  if path =? "" then "."
  else
    let initial_slashes :=
      if String.prefix "/" path then
        if String.prefix "//" path && negb (String.prefix "///" path) then 2%nat
        else 1%nat
      else 0%nat in
    let comps := PyStr.split PyStr.slash path in
    let new_comps := rev (fold_left (norm_step initial_slashes) comps []) in
    let joined := String.concat "/" new_comps in
    let p := match initial_slashes with
             | 0%nat => joined
             | 1%nat => "/" ++ joined
             | _ => "//" ++ joined
             end in
    if p =? "" then "." else p.

End posixpath.

(** [urllib.parse.unquote(s)]: a string without [%] is returned as it is. *)
Definition unquote (lib : Lib) (s : string) : string :=
  if PyStr.contains "%"%char s then unquote_escapes lib s else s.

(** ** [http.server] *)

(** The request handler object [self], once [parse_request] has filled it
    in.  [now] is the clock while the request is served; [directory] is
    [os.getcwd()] taken by [SimpleHTTPRequestHandler.__init__]. *)
Record handler : Type := mkHandler {
  requestline : string;
  command : string;
  path : string;
  headers : list (string * string);
  client : string;
  now : Z;
  directory : string
}.

(** [self.path = p] *)
Definition set_path (self : handler) (p : string) : handler :=
  mkHandler (requestline self) (command self) p (headers self)
            (client self) (now self) (directory self).

(** What handling one request produces: the lines written to standard
    error and the reply written to the connection. *)
Record served : Type := mkServed {
  logged : list string;
  reply : response
}.

(** [self.log_message], resolved on the class of [self]: the lines it
    writes for a formatted message. *)
Definition logger : Type := handler -> string -> list string.

(** A [do_*] method; its first argument is the [log_message] of the class
    of [self]. *)
Definition method : Type := logger -> handler -> served.

(** A handler class: the [do_*] attributes it has, own or inherited, and
    its [log_message]. *)
Record handler_class : Type := mkClass {
  getattr : string -> option method;
  log_message : logger
}.

(** [name in self.headers] and [self.headers[name]]: names compare without
    case, the first match is returned. *)
Definition get_header (name : string) (hs : list (string * string))
    : option string :=
  match find (fun kv => PyStr.lower (fst kv) =? PyStr.lower name) hs with
  | Some kv => Some (snd kv)
  | None => None
  end.

Module http_server.
Section WithLibrary.

Variable lib : Lib.
Variable env : Env.

Definition error_content_type : string := "text/html;charset=utf-8".

(** [BaseHTTPRequestHandler.log_message]: one line on standard error. *)
Definition BaseHTTPRequestHandler_log_message : logger :=
  fun self message =>
    [client self ++ " - - [" ++ log_date_time_string lib (now self) ++ "] "
       ++ escape_control lib message].

(** [log_request(code)] *)
Definition log_request (log : logger) (self : handler) (code : Z)
    : list string :=
  log self (PyStr.dquote ++ requestline self ++ PyStr.dquote ++ " "
              ++ PyStr.of_Z code ++ " -").

(** [log_error("code %d, message %s", code, message)] *)
Definition log_error (log : logger) (self : handler) (code : Z)
    (message : string) : list string :=
  log self ("code " ++ PyStr.of_Z code ++ ", message " ++ message).

(** [send_response(code, message)], the further [send_header] calls,
    [end_headers()] and the bytes written after them. *)
Definition send_response (log : logger) (self : handler) (code : Z)
    (message : string) (more : list (string * string)) (content : string)
    : served :=
  mkServed (log_request log self code)
    (mkResponse code message
       (("Server", version_string lib)
          :: ("Date", date_time_string lib (now self)) :: more)
       content).

(** [send_error(code, message)] *)
Definition send_error (log : logger) (self : handler) (code : Z)
    (message : string) : served :=
  let has_body :=
    (200 <=? code)%Z
    && negb ((code =? 204)%Z || (code =? 205)%Z || (code =? 304)%Z) in
  let page := error_page lib code message in
  let more :=
    ("Connection", "close")
      :: (if has_body
          then [("Content-Type", error_content_type);
                ("Content-Length", PyStr.of_nat (String.length page))]
          else []) in
  let sent := send_response log self code message more
                (if negb (command self =? "HEAD") && has_body
                 then page else "") in
  mkServed (log_error log self code message ++ logged sent) (reply sent).

(** [translate_path(path)] *)
Definition translate_path (self : handler) (p : string) : string :=
  let p := PyStr.before "?"%char p in
  let p := PyStr.before "#"%char p in
  let trailing_slash := PyStr.endswith (PyStr.rstrip p) "/" in
  let p := unquote lib p in
  let p := posixpath.normpath p in
  let words := filter (fun w => negb (w =? "")) (PyStr.split PyStr.slash p) in
  let ignored w :=
    PyStr.contains PyStr.slash w || (w =? ".") || (w =? "..") in
  let file :=
    fold_left (fun acc w => if ignored w then acc else posixpath.join acc w)
              words (directory self) in
  if trailing_slash then file ++ "/" else file.

Definition is_dir (p : string) : bool :=
  match stat env p with Directory _ => true | _ => false end.

Definition is_file (p : string) : bool :=
  match stat env p with RegularFile _ _ _ => true | _ => false end.

(** [list_directory(path)] *)
Definition list_directory (log : logger) (self : handler) (file : string)
    : served * option string :=
  match stat env file with
  | Directory (Some names) =>
      let page := listing_page lib (path self) names in
      (send_response log self 200 (reason_phrase lib 200)
         [("Content-type", "text/html; charset=" ++ fs_encoding lib);
          ("Content-Length", PyStr.of_nat (String.length page))] "",
       Some page)
  | _ => (send_error log self 404 "No permission to list directory", None)
  end.

(** The part of [send_head] after the directory test: open the file and
    answer 200, 304 or 404. *)
Definition send_file_head (log : logger) (self : handler) (file : string)
    : served * option string :=
  let ctype := guess_type lib file in
  if PyStr.endswith file "/"
  then (send_error log self 404 "File not found", None)
  else
    match stat env file with
    | RegularFile true mtime content =>
        let not_modified :=
          match get_header "If-Modified-Since" (headers self),
                get_header "If-None-Match" (headers self) with
          | Some since, None =>
              match parsedate_utc lib since with
              | Some ims => (mtime <=? ims)%Z
              | None => false
              end
          | _, _ => false
          end in
        if not_modified
        then (send_response log self 304 (reason_phrase lib 304) [] "", None)
        else (send_response log self 200 (reason_phrase lib 200)
                [("Content-type", ctype);
                 ("Content-Length", PyStr.of_nat (String.length content));
                 ("Last-Modified", date_time_string lib mtime)] "",
              Some content)
    | _ => (send_error log self 404 "File not found", None)
    end.

(** [send_head()]: the reply head, and the open file when there is one. *)
Definition send_head (log : logger) (self : handler)
    : served * option string :=
  let file := translate_path self (path self) in
  if is_dir file then
    if negb (PyStr.endswith (urlsplit_path lib (path self)) "/") then
      (send_response log self 301 (reason_phrase lib 301)
         [("Location", url_add_slash lib (path self));
          ("Content-Length", "0")] "",
       None)
    else if is_file (posixpath.join file "index.html")
    then send_file_head log self (posixpath.join file "index.html")
    else if is_file (posixpath.join file "index.htm")
    then send_file_head log self (posixpath.join file "index.htm")
    else list_directory log self file
  else send_file_head log self file.

(** [copyfile(f, self.wfile)]: the content follows the head. *)
Definition with_body (s : served) (content : string) : served :=
  mkServed (logged s)
    (mkResponse (status (reply s)) (reason (reply s))
                (resp_headers (reply s)) (body (reply s) ++ content)).

(** [SimpleHTTPRequestHandler.do_GET] *)
Definition SimpleHTTPRequestHandler_do_GET : method :=
  fun log self =>
    match send_head log self with
    | (head, Some f) => with_body head f
    | (head, None) => head
    end.

(** [SimpleHTTPRequestHandler.do_HEAD] *)
Definition SimpleHTTPRequestHandler_do_HEAD : method :=
  fun log self => fst (send_head log self).

(** The class [SimpleHTTPRequestHandler]: [do_GET] and [do_HEAD] are its
    only [do_*] attributes, [log_message] is inherited from
    [BaseHTTPRequestHandler]. *)
Definition SimpleHTTPRequestHandler : handler_class :=
  mkClass
    (fun name =>
       if name =? "do_GET" then Some SimpleHTTPRequestHandler_do_GET
       else if name =? "do_HEAD" then Some SimpleHTTPRequestHandler_do_HEAD
       else None)
    BaseHTTPRequestHandler_log_message.

(** [handle_one_request], from the method dispatch on. *)
Definition handle_one_request (cls : handler_class) (self : handler)
    : served :=
  match getattr cls ("do_" ++ command self) with
  | None =>
      send_error (log_message cls) self 501
        ("Unsupported method (" ++ py_repr lib (command self) ++ ")")
  | Some do_command => do_command (log_message cls) self
  end.

End WithLibrary.
End http_server.

(** ** [socketserver] *)

(** One parsed request arriving on an accepted connection.  The protocol
    version of the handler is HTTP/1.0, so a connection carries one
    request. *)
Record request : Type := mkRequest {
  req_line : string;
  req_command : string;
  req_path : string;
  req_headers : list (string * string);
  req_client : string;
  req_time : Z
}.

(** What wakes the accept loop: a connection.  [Connection r] delivers
    the request [r] and takes its reply.  [Broken r] delivers [r] and fails
    with a socket error (reset, broken pipe) while the reply is written.
    [Empty] is closed by the peer before it sends a request line.  [Reset]
    fails with a socket error while the request line is read. *)
Inductive arrival : Type :=
| Connection (r : request)
| Broken (r : request)
| Empty
| Reset.

(** How the observation of the accept loop ends: the loop is still waiting
    in [select], or SIGINT is delivered while it waits. *)
Inductive ending : Type :=
| Waiting
| Interrupt.

(** The server object: its address and its [RequestHandlerClass]. *)
Record server : Type := mkServer {
  server_address : string * Z;
  RequestHandlerClass : handler_class
}.




Module socketserver.
Section WithLibrary.

Variable lib : Lib.
Variable env : Env.

(** [m], and [h] before re-raising when [m] raises:
    [try: m  except: h; raise]. *)
Definition on_exception {A} (m : M A) (h : M unit) : M A :=
  fun s =>
    match m s with
    | (Raise e, s') => (Raise e, snd (h s'))
    | r => r
    end.

(** [socket.bind((host, port))]: the port is checked against 0..65535 by
    the socket module, then the address is asked from the system. *)
Definition socket_bind (address : string * Z) : M unit :=
  let (host, port) := address in
  emit (Bind host port) ;;
  if (port <? 0)%Z || (65535 <? port)%Z then raise OverflowError
  else if bindable env host port then ret tt
  else raise OSError.

(** [server_close()] *)
Definition server_close : M unit := emit Close.

(** [TCPServer(server_address, RequestHandlerClass)]: bind and listen; on
    failure close the socket and re-raise. *)
Definition TCPServer (address : string * Z) (cls : handler_class)
    : M server :=
  on_exception (socket_bind address ;; emit Listen) server_close ;;
  ret (mkServer address cls).

(** [RequestHandlerClass(request, client_address, self)]: the handler
    object for a request, created while the working directory is [d]. *)
Definition new_handler (r : request) (d : string) : handler :=
  mkHandler (req_line r) (req_command r) (req_path r)
            (req_headers r) (req_client r) (req_time r) d.

(** What serving [r] does to the outside when the connection holds: the
    log lines, then the reply. *)
Definition answer (httpd : server) (d : string) (r : request)
    : list effect :=
  let out := http_server.handle_one_request lib (RequestHandlerClass httpd)
               (new_handler r d) in
  map Stderr (logged out) ++ [Reply (reply out)].

(** What the handler logs for [r] before its reply goes out. *)
Definition attempt (httpd : server) (d : string) (r : request)
    : list effect :=
  map Stderr
    (logged (http_server.handle_one_request lib (RequestHandlerClass httpd)
               (new_handler r d))).

(** [finish_request]: a fresh handler object serves the connection.  A
    socket error while the request line is read, or while the reply is
    written, leaves the handler as [OSError]; an empty request line makes
    [handle_one_request] return at once. *)
Definition finish_request (httpd : server) (a : arrival) : M unit :=
  d <- getcwd ;;
  match a with
  | Connection r => emits (answer httpd d r)
  | Broken r => emits (attempt httpd d r) ;; raise OSError
  | Empty => ret tt
  | Reset => raise OSError
  end.

(** [handle_error]: the report on standard error. *)
Definition handle_error (e : exn) : M unit := emit (ErrorBlock e).

(** [_handle_request_noblock]: [process_request] under
    [except Exception: handle_error(...)]; any other exception is
    re-raised. *)
Definition handle_request_noblock (httpd : server) (a : arrival) : M unit :=
  try_except_Exception (finish_request httpd a) handle_error.

(** [serve_forever()]: one connection at a time.  It has no normal return:
    nothing calls [shutdown()].  When the observed connections are used up
    the loop is waiting in [select], where SIGINT raises
    [KeyboardInterrupt]. *)
Fixpoint serve_forever (httpd : server) (arriving : list arrival)
    (last : ending) : M unit :=
  match arriving with
  | [] =>
      match last with
      | Waiting => fun s => (Blocked, s)
      | Interrupt => raise KeyboardInterrupt
      end
  | a :: rest =>
      handle_request_noblock httpd a ;; serve_forever httpd rest last
  end.

End WithLibrary.
End socketserver.

(** ** [redirect_server.py] *)
Module redirect_server.
Section WithLibrary.

Variable lib : Lib.
Variable env : Env.

(** [StopBrowsingHandler.do_GET] *)
Definition StopBrowsingHandler_do_GET : method :=
  fun log self =>
    let self := set_path self "/index.html" in
    http_server.SimpleHTTPRequestHandler_do_GET lib env log self.

(** [StopBrowsingHandler.log_message]: [pass] *)
Definition StopBrowsingHandler_log_message : logger :=
  fun _ _ => [].

(** [class StopBrowsingHandler(http.server.SimpleHTTPRequestHandler)]: the
    two methods above are its own, every other attribute is looked up in
    the base class. *)
Definition StopBrowsingHandler : handler_class :=
  mkClass
    (fun name =>
       if name =? "do_GET" then Some StopBrowsingHandler_do_GET
       else getattr (http_server.SimpleHTTPRequestHandler lib env) name)
    StopBrowsingHandler_log_message.

Definition usage : string := "Usage: redirect_server.py <port> <redirect_dir>".

Definition running_on (port : Z) : string :=
  "StopBrowsing redirect server running on port " ++ PyStr.of_Z port.

Definition stopped : string := "Server stopped".

(** [int(s)] *)
Definition py_int (s : string) : M Z :=
  match int_of_str env s with
  | Some n => ret n
  | None => raise ValueError
  end.

(** [os.chdir(d)]: a relative [d] is resolved in the working directory. *)
Definition os_chdir (d : string) : M unit :=
  from <- getcwd ;;
  emit (Chdir d) ;;
  match chdir_to env from d with
  | Some c => setcwd c
  | None => raise OSError
  end.

(** [main()], with [sys.argv], the connections that arrive while the
    server listens and how their observation ends. *)
Definition main (argv : list string) (arriving : list arrival)
    (last : ending) : M unit :=
  (if negb (length argv =? 3)%nat
   then print usage ;; sys_exit 1
   else ret tt) ;;
  port <- py_int (nth 1 argv "") ;;
  let redirect_dir := nth 2 argv "" in
  os_chdir redirect_dir ;;
  httpd <- socketserver.TCPServer env ("", port) StopBrowsingHandler ;;
  finally
    (print (running_on port) ;;
     try_except_KeyboardInterrupt
       (socketserver.serve_forever lib httpd arriving last)
       (print stopped))
    socketserver.server_close.

End WithLibrary.
End redirect_server.

(** ** Running the script *)

(** How the process stands when the observed input is used up. *)
Inductive outcome : Type :=
| Exited (code : Z)
| Serving.

(** The interpreter around [main()]: normal return exits with 0,
    [SystemExit(c)] with [c], an uncaught [KeyboardInterrupt] ends the
    process by the signal (130 to a shell), any other uncaught exception
    prints a traceback and exits with 1.  [main] lets no
    [KeyboardInterrupt] out of [serve_forever], the one place where this
    model delivers SIGINT. *)
Definition interpret (r : result unit * proc) : outcome * list effect :=
  match r with
  | (Ret _, s) => (Exited 0, trace s)
  | (Raise (SystemExit c), s) => (Exited c, trace s)
  | (Raise KeyboardInterrupt, s) =>
      (Exited 130, (trace s ++ [Traceback KeyboardInterrupt])%list)
  | (Raise e, s) => (Exited 1, (trace s ++ [Traceback e])%list)
  | (Blocked, s) => (Serving, trace s)
  end.

(** [python3 redirect_server.py ...] started in [start]. *)
Definition run (lib : Lib) (env : Env) (start : string) (argv : list string)
    (arriving : list arrival) (last : ending) : outcome * list effect :=
  interpret
    (redirect_server.main lib env argv arriving last (mkProc start [])).

(** ** Observing a run *)

(** The status codes of the replies, in order. *)
Definition statuses (tr : list effect) : list Z :=
  flat_map (fun e => match e with Reply r => [status r] | _ => [] end) tr.


(** The run reaches the accept loop: the port parses to [n], the directory
    change, made in [start], succeeds and leaves the process in [c], and the
    address can be bound. *)
Definition starts (env : Env) (start p d : string) (n : Z) (c : string)
    : Prop :=
  int_of_str env p = Some n /\ chdir_to env start d = Some c
  /\ (0 <= n <= 65535)%Z /\ bindable env "" n = true.

(** A GET request as a handler object. *)
Definition GET (line p : string) (hs : list (string * string))
    (who : string) (t : Z) (dir : string) : handler :=
  mkHandler line "GET" p hs who t dir.

(** A HEAD request as a handler object. *)
Definition HEAD (line p : string) (hs : list (string * string))
    (who : string) (t : Z) (dir : string) : handler :=
  mkHandler line "HEAD" p hs who t dir.

(** How the responder serves the request held by [self]: the dispatch of
    [handle_one_request] on the class [StopBrowsingHandler]. *)
Definition respond (lib : Lib) (env : Env) (self : handler) : served :=
  http_server.handle_one_request lib
    (redirect_server.StopBrowsingHandler lib env) self.

(** The number of [Server stopped] lines on standard output. *)
Definition stop_lines (tr : list effect) : nat :=
  length (filter (fun e => match e with
                           | Stdout l => (l =? redirect_server.stopped)%string
                           | _ => false
                           end) tr).

(** What the accept loop does to the outside for one connection, in
    directory [d]: the reply to a request, the report of a socket error
    after what was logged, nothing for a connection that sends nothing. *)
Definition handled (lib : Lib) (httpd : server) (d : string) (a : arrival)
    : list effect :=
  match a with
  | Connection r => socketserver.answer lib httpd d r
  | Broken r => socketserver.attempt lib httpd d r ++ [ErrorBlock OSError]
  | Empty => []
  | Reset => [ErrorBlock OSError]
  end.

(** The effects of the connections [arriving] one after the other. *)
Definition answers (lib : Lib) (httpd : server) (d : string)
    (arriving : list arrival) : list effect :=
  flat_map (handled lib httpd d) arriving.



(** The server object [main] creates for port [n]. *)
Definition the_server (lib : Lib) (env : Env) (n : Z) : server :=
  mkServer ("", n) (redirect_server.StopBrowsingHandler lib env).

(** What a successful start-up has done when the loop is entered. *)
Definition started (d : string) (n : Z) : list effect :=
  [Chdir d; Bind "" n; Listen; Stdout (redirect_server.running_on n)].

(** The reply of [send_error(404, "File not found")]. *)
Definition not_found (lib : Lib) (head_only : bool) (t : Z) : response :=
  let page := error_page lib 404 "File not found" in
  mkResponse 404 "File not found"
    [("Server", version_string lib); ("Date", date_time_string lib t);
     ("Connection", "close");
     ("Content-Type", http_server.error_content_type);
     ("Content-Length", PyStr.of_nat (String.length page))]
    (if head_only then ""%string else page).

(** The reply that carries a file. *)
Definition found (lib : Lib) (file : string) (mtime : Z)
    (content : string) (t : Z) : response :=
  mkResponse 200 (reason_phrase lib 200)
    [("Server", version_string lib); ("Date", date_time_string lib t);
     ("Content-type", guess_type lib file);
     ("Content-Length", PyStr.of_nat (String.length content));
     ("Last-Modified", date_time_string lib mtime)]
    content.

(** The seven cases of [run], each with its outcome and its whole trace:
    the case analysis the proofs below share. *)
Inductive behaviour (lib : Lib) (env : Env) (start : string)
    (argv : list string) (arriving : list arrival) (last : ending)
    : outcome * list effect -> Prop :=
| wrong_arguments :
    length argv <> 3%nat ->
    behaviour lib env start argv arriving last
      (Exited 1, [Stdout redirect_server.usage])
| port_not_integer prog p d :
    argv = [prog; p; d] ->
    int_of_str env p = None ->
    behaviour lib env start argv arriving last
      (Exited 1, [Traceback ValueError])
| directory_refused prog p d n :
    argv = [prog; p; d] ->
    int_of_str env p = Some n ->
    chdir_to env start d = None ->
    behaviour lib env start argv arriving last
      (Exited 1, [Chdir d; Traceback OSError])
| port_out_of_range prog p d n c :
    argv = [prog; p; d] ->
    int_of_str env p = Some n ->
    chdir_to env start d = Some c ->
    (n < 0 \/ 65535 < n)%Z ->
    behaviour lib env start argv arriving last
      (Exited 1, [Chdir d; Bind "" n; Close; Traceback OverflowError])
| address_refused prog p d n c :
    argv = [prog; p; d] ->
    int_of_str env p = Some n ->
    chdir_to env start d = Some c ->
    (0 <= n <= 65535)%Z ->
    bindable env "" n = false ->
    behaviour lib env start argv arriving last
      (Exited 1, [Chdir d; Bind "" n; Close; Traceback OSError])
| still_serving prog p d n c :
    argv = [prog; p; d] ->
    starts env start p d n c ->
    last = Waiting ->
    behaviour lib env start argv arriving last
      (Serving,
       (started d n ++ answers lib (the_server lib env n) c arriving)%list)
| interrupted prog p d n c :
    argv = [prog; p; d] ->
    starts env start p d n c ->
    last = Interrupt ->
    behaviour lib env start argv arriving last
      (Exited 0,
       (started d n ++ answers lib (the_server lib env n) c arriving
          ++ [Stdout redirect_server.stopped; Close])%list).

(** ** A small deployment, to run the model on *)
Module Demo.

Definition page : string := "<h1>Stop browsing</h1>".

Definition lib : Lib :=
  mkLib "SimpleHTTP/0.6 Python/3.11.2"
        (fun t => "t=" ++ PyStr.of_Z t)
        (fun t => "t=" ++ PyStr.of_Z t)
        (fun m => m)
        (fun c => if (c =? 200)%Z then "OK" else "")
        (fun c m => "<p>" ++ PyStr.of_Z c ++ " " ++ m ++ "</p>")
        (fun _ => "text/html")
        (fun _ => None)
        (fun s => s)
        (fun s => s)
        (fun s => s ++ "/")
        (fun _ names => String.concat " " names)
        (fun s => "'" ++ s ++ "'")
        "utf-8".

(** Decimal digits with an optional minus sign. *)
Definition decimal (s : string) : option Z :=
  option_map Z.of_int (NilZero.int_of_string s).

(** Where [os.chdir(d)] leads from the directory [from]. *)
Definition target (from d : string) : string :=
  if String.prefix "/" d then d else posixpath.join from d.

(** [/srv/redirect] holds [index.html]; [/srv/empty] is an empty directory;
    nothing else exists; every port is free. *)
Definition env : Env :=
  mkEnv decimal
        (fun from d =>
           if (target from d =? "/srv/redirect")
              || (target from d =? "/srv/empty")
           then Some (target from d) else None)
        (fun f => if f =? "/srv/redirect/index.html"
                  then RegularFile true 1700000000 page
                  else if (f =? "/srv/redirect") || (f =? "/srv/redirect/")
                       then Directory (Some ["index.html"])
                  else if (f =? "/srv/empty") || (f =? "/srv/empty/")
                       then Directory (Some [])
                       else Absent)
        (fun _ _ => true).

Definition get (p : string) : request :=
  mkRequest ("GET " ++ p ++ " HTTP/1.1") "GET" p [] "192.0.2.7" 1700000100.

Definition head (p : string) : request :=
  mkRequest ("HEAD " ++ p ++ " HTTP/1.1") "HEAD" p [] "192.0.2.7" 1700000100.

Definition argv (port dir : string) : list string :=
  ["redirect_server.py"; port; dir].

End Demo.

(** The bodies of the replies, in order. *)
Definition bodies (tr : list effect) : list string :=
  flat_map (fun e => match e with Reply r => [body r] | _ => [] end) tr.

(** The reply without its body: what a HEAD request may see of it. *)
Definition head_of (r : response) : Z * string * list (string * string) :=
  (status r, reason r, resp_headers r).

(** The reply of [send_response(304)] followed by [end_headers()]. *)
Definition not_modified (lib : Lib) (t : Z) : response :=
  mkResponse 304 (reason_phrase lib 304)
    [("Server", version_string lib); ("Date", date_time_string lib t)]
    "".

(** The redirect [send_head] answers for a directory asked for without a
    final slash. *)
Definition moved (lib : Lib) (p : string) (t : Z) : response :=
  mkResponse 301 (reason_phrase lib 301)
    [("Server", version_string lib); ("Date", date_time_string lib t);
     ("Location", url_add_slash lib p); ("Content-Length", "0")]
    "".

(** The reply of [send_error(501, ...)] for a method the class lacks. *)
Definition not_implemented (lib : Lib) (cmd : string) (t : Z) : response :=
  let message := "Unsupported method (" ++ py_repr lib cmd ++ ")" in
  let page := error_page lib 501 message in
  mkResponse 501 message
    [("Server", version_string lib); ("Date", date_time_string lib t);
     ("Connection", "close");
     ("Content-Type", http_server.error_content_type);
     ("Content-Length", PyStr.of_nat (String.length page))]
    page.

(** ** Deployments with faults *)
Module Faults.

(** As [Demo.env], with no address left to bind. *)
Definition busy : Env :=
  mkEnv (int_of_str Demo.env) (chdir_to Demo.env) (stat Demo.env)
        (fun _ _ => false).

(** [/srv/locked] holds an [index.html] that cannot be opened;
    [/srv/nested] holds a directory of that name. *)
Definition odd : Env :=
  mkEnv Demo.decimal
        (fun from d =>
           if (Demo.target from d =? "/srv/locked")
              || (Demo.target from d =? "/srv/nested")
           then Some (Demo.target from d) else None)
        (fun f => if f =? "/srv/locked/index.html"
                  then RegularFile false 1700000000 Demo.page
                  else if f =? "/srv/nested/index.html"
                       then Directory (Some [])
                       else Absent)
        (fun _ _ => true).

(** As [Demo.lib], with dates written as seconds in decimal. *)
Definition dated : Lib :=
  mkLib (version_string Demo.lib) (date_time_string Demo.lib)
        (log_date_time_string Demo.lib) (escape_control Demo.lib)
        (reason_phrase Demo.lib) (error_page Demo.lib)
        (guess_type Demo.lib) Demo.decimal (unquote_escapes Demo.lib)
        (urlsplit_path Demo.lib) (url_add_slash Demo.lib)
        (listing_page Demo.lib) (py_repr Demo.lib) (fs_encoding Demo.lib).

End Faults.

(** ** The model at work *)

Example split_index : PyStr.split PyStr.slash "/index.html" = [""; "index.html"].
Proof. reflexivity. Qed.

Example before_query : PyStr.before "?"%char "/foo/bar?x=1" = "/foo/bar".
Proof. reflexivity. Qed.

Example of_Z_neg : PyStr.of_Z (-80) = "-80".
Proof. reflexivity. Qed.

Example rstrip_slash : PyStr.endswith (PyStr.rstrip "/a/  ") "/" = true.
Proof. reflexivity. Qed.

Example normpath_dots : posixpath.normpath "/a/./b/../c//d" = "/a/c/d".
Proof. reflexivity. Qed.

Example normpath_up : posixpath.normpath "/../x" = "/x".
Proof. reflexivity. Qed.

Example normpath_rel : posixpath.normpath "../x/" = "../x".
Proof. reflexivity. Qed.

Example demo_statuses :
  statuses (snd (run Demo.lib Demo.env "/"
                   (Demo.argv "8080" "/srv/redirect")
                   [Connection (Demo.get "/");
                    Connection (Demo.get "/foo/bar?x=1");
                    Connection (Demo.head "/foo");
                    Connection (Demo.head "/index.html")]
                   Waiting))
  = [200; 200; 404; 200]%Z.
Proof. reflexivity. Qed.

Example demo_interrupt :
  run Demo.lib Demo.env "/" (Demo.argv "8080" "/srv/redirect") [] Interrupt
  = (Exited 0,
     [Chdir "/srv/redirect"; Bind "" 8080; Listen;
      Stdout "StopBrowsing redirect server running on port 8080";
      Stdout "Server stopped"; Close]).
Proof. reflexivity. Qed.

Example demo_port_out_of_range :
  run Demo.lib Demo.env "/" (Demo.argv "70000" "/srv/redirect") [] Waiting
  = (Exited 1,
     [Chdir "/srv/redirect"; Bind "" 70000; Close; Traceback OverflowError]).
Proof. reflexivity. Qed.

(** A relative directory is looked for where the script was started. *)
Example demo_relative_directory :
  fst (run Demo.lib Demo.env "/srv" (Demo.argv "8080" "redirect") [] Waiting)
    = Serving
  /\ run Demo.lib Demo.env "/" (Demo.argv "8080" "redirect") [] Waiting
     = (Exited 1, [Chdir "redirect"; Traceback OSError]).
Proof. split; reflexivity. Qed.

(** A connection that breaks is reported on standard error and the next
    one is served. *)
Example demo_broken_connection :
  snd (run Demo.lib Demo.env "/" (Demo.argv "8080" "/srv/empty")
         [Broken (Demo.get "/"); Empty; Reset; Connection (Demo.get "/")]
         Waiting)
  = [Chdir "/srv/empty"; Bind "" 8080; Listen;
     Stdout "StopBrowsing redirect server running on port 8080";
     ErrorBlock OSError; ErrorBlock OSError;
     Reply (not_found Demo.lib false 1700000100)].
Proof. reflexivity. Qed.

(** With the base class as handler class every request leaves a line on
    standard error: the log that [StopBrowsingHandler] switches off. *)
Example base_class_logs :
  logged (http_server.handle_one_request Demo.lib
            (http_server.SimpleHTTPRequestHandler Demo.lib Demo.env)
            (GET "GET / HTTP/1.1" "/" [] "192.0.2.7" 5 "/srv/redirect"))
  = ["192.0.2.7 - - [t=5] " ++ PyStr.dquote ++ "GET / HTTP/1.1"
       ++ PyStr.dquote ++ " 200 -"].
Proof. reflexivity. Qed.

(** ** The accept loop and the start-up sequence *)

Local Open Scope list_scope.

Section Loop.

Variable lib : Lib.
Variable httpd : server.

(** One turn of the loop returns, whatever happens on the connection: a
    socket error is reported and goes no further. *)
Lemma handle_request_noblock_returns (a : arrival) (s : proc) :
  socketserver.handle_request_noblock lib httpd a s
  = (Ret tt, mkProc (cwd s) (trace s ++ handled lib httpd (cwd s) a)).
Proof.
  unfold socketserver.handle_request_noblock, try_except_Exception,
    socketserver.finish_request, socketserver.handle_error, bind, getcwd,
    emits, emit, raise, ret.
  destruct a as [r|r| |]; cbn [handled cwd trace is_Exception].
  - reflexivity.
  - rewrite <- app_assoc. reflexivity.
  - rewrite app_nil_r. destruct s; reflexivity.
  - reflexivity.
Qed.

(** Connections are handled in turn, in the same working directory; the
    loop is left only by the interrupt. *)
Lemma serve_forever_runs (arriving : list arrival) (last : ending) :
  forall s : proc,
    socketserver.serve_forever lib httpd arriving last s
    = (match last with
       | Waiting => Blocked
       | Interrupt => Raise KeyboardInterrupt
       end,
       mkProc (cwd s) (trace s ++ answers lib httpd (cwd s) arriving)).
Proof.
  induction arriving as [|a arriving IH]; intros s.
  - cbn [socketserver.serve_forever answers flat_map]. rewrite app_nil_r.
    destruct last, s; reflexivity.
  - cbn [socketserver.serve_forever]. unfold bind at 1.
    rewrite handle_request_noblock_returns, IH.
    cbn [cwd trace answers flat_map]. rewrite <- app_assoc. reflexivity.
Qed.

End Loop.

Section StartUp.

Variable lib : Lib.
Variable env : Env.

Lemma in_range_test (n : Z) :
  (0 <= n <= 65535)%Z -> (n <? 0)%Z || (65535 <? n)%Z = false.
Proof. intros H. apply orb_false_iff. split; apply Z.ltb_ge; lia. Qed.

Ltac enter_main :=
  unfold run, redirect_server.main, bind, redirect_server.py_int,
    redirect_server.os_chdir, socketserver.TCPServer,
    socketserver.on_exception, socketserver.socket_bind,
    socketserver.server_close, finally,
    try_except_KeyboardInterrupt, print, sys_exit, raise, emit, setcwd,
    getcwd, ret, bind;
  cbn [length Nat.eqb negb nth cwd trace].

(** While no interrupt comes, the process is serving. *)
Lemma run_serving (start prog p d : string) (n : Z) (c : string)
    (arriving : list arrival) :
  starts env start p d n c ->
  run lib env start [prog; p; d] arriving Waiting
  = (Serving, started d n ++ answers lib (the_server lib env n) c arriving).
Proof.
  intros (Hint & Hdir & Hrange & Hfree).
  enter_main. rewrite Hint. cbn [cwd trace].
  rewrite Hdir. cbn [cwd trace]. rewrite (in_range_test n Hrange), Hfree.
  cbn [cwd trace app].
  fold (the_server lib env n).
  rewrite serve_forever_runs. reflexivity.
Qed.

(** At the interrupt the process prints the stop line, closes the socket
    and ends with status 0. *)
Lemma run_interrupted (start prog p d : string) (n : Z) (c : string)
    (arriving : list arrival) :
  starts env start p d n c ->
  run lib env start [prog; p; d] arriving Interrupt
  = (Exited 0,
     started d n ++ answers lib (the_server lib env n) c arriving
       ++ [Stdout redirect_server.stopped; Close]).
Proof.
  intros (Hint & Hdir & Hrange & Hfree).
  enter_main. rewrite Hint. cbn [cwd trace].
  rewrite Hdir. cbn [cwd trace]. rewrite (in_range_test n Hrange), Hfree.
  cbn [cwd trace app].
  fold (the_server lib env n).
  rewrite serve_forever_runs.
  cbn [cwd trace snd interpret].
  unfold started. cbn [app]. rewrite <- !app_assoc. reflexivity.
Qed.

Lemma three_arguments (argv : list string) :
  length argv = 3%nat -> exists prog p d, argv = [prog; p; d].
Proof.
  destruct argv as [|prog [|p [|d [|x argv]]]]; try discriminate.
  intros _. exists prog, p, d. reflexivity.
Qed.

(** Each run falls under one of the seven cases. *)
Lemma run_behaviour (start : string) (argv : list string)
    (arriving : list arrival) (last : ending) :
  behaviour lib env start argv arriving last
    (run lib env start argv arriving last).
Proof.
  destruct (Nat.eq_dec (length argv) 3) as [Hlen|Hlen].
  - destruct (three_arguments argv Hlen) as (prog & p & d & ->).
    destruct (int_of_str env p) as [n|] eqn:Hint.
    + destruct (chdir_to env start d) as [c|] eqn:Hdir.
      * destruct (Z.ltb_spec n 0) as [Hneg|Hnonneg];
          [|destruct (Z.ltb_spec 65535 n) as [Hbig|Hsmall]].
        -- replace (run lib env start [prog; p; d] arriving last)
             with (Exited 1,
                   [Chdir d; Bind "" n; Close; Traceback OverflowError]).
           ++ eapply port_out_of_range; eauto.
           ++ enter_main. rewrite Hint. cbn [cwd trace].
              rewrite Hdir. cbn [cwd trace].
              apply Z.ltb_lt in Hneg. rewrite Hneg. reflexivity.
        -- replace (run lib env start [prog; p; d] arriving last)
             with (Exited 1,
                   [Chdir d; Bind "" n; Close; Traceback OverflowError]).
           ++ eapply port_out_of_range; eauto.
           ++ enter_main. rewrite Hint. cbn [cwd trace].
              rewrite Hdir. cbn [cwd trace].
              apply Z.ltb_lt in Hbig. rewrite Hbig, orb_true_r. reflexivity.
        -- destruct (bindable env "" n) eqn:Hfree.
           ++ assert (Hstarts : starts env start p d n c)
                by (repeat split; assumption).
              destruct last.
              ** rewrite (run_serving start prog p d n c arriving Hstarts).
                 eapply still_serving; eauto.
              ** rewrite (run_interrupted start prog p d n c arriving
                            Hstarts).
                 eapply interrupted; eauto.
           ++ replace (run lib env start [prog; p; d] arriving last)
                with (Exited 1,
                      [Chdir d; Bind "" n; Close; Traceback OSError]).
              ** eapply address_refused; eauto.
              ** enter_main. rewrite Hint. cbn [cwd trace].
                 rewrite Hdir. cbn [cwd trace].
                 rewrite (in_range_test n (conj Hnonneg Hsmall)), Hfree.
                 reflexivity.
      * replace (run lib env start [prog; p; d] arriving last)
          with (Exited 1, [Chdir d; Traceback OSError]).
        -- eapply directory_refused; eauto.
        -- enter_main. rewrite Hint. cbn [cwd trace].
           rewrite Hdir. reflexivity.
    + replace (run lib env start [prog; p; d] arriving last)
        with (Exited 1, [Traceback ValueError]).
      * eapply port_not_integer; eauto.
      * enter_main. rewrite Hint. reflexivity.
  - replace (run lib env start argv arriving last)
      with (Exited 1, [Stdout redirect_server.usage]).
    + apply wrong_arguments. exact Hlen.
    + unfold run, redirect_server.main, bind at 1.
      apply Nat.eqb_neq in Hlen. rewrite Hlen. reflexivity.
Qed.

(** The cases exclude one another. *)
Lemma behaviour_unique (start : string) (argv : list string)
    (arriving : list arrival) (last : ending)
    (r r' : outcome * list effect) :
  behaviour lib env start argv arriving last r ->
  behaviour lib env start argv arriving last r' ->
  r = r'.
Proof.
  intros H H'.
  destruct H; destruct H'; subst;
    repeat match goal with
           | E : [_; _; _] = [_; _; _] |- _ => injection E as -> -> ->
           | S : starts _ _ _ _ _ _ |- _ => destruct S as (? & ? & ? & ?)
           end;
    repeat match goal with
           | A : ?f = Some ?n, B : ?f = Some ?m |- _ =>
               rewrite A in B; injection B as <-
           end;
    try reflexivity;
    try (exfalso; cbn [length] in *; congruence);
    try (exfalso; lia).
Qed.

End StartUp.

(** ** What the handler answers *)

Section Handler.

Variable lib : Lib.
Variable env : Env.


(** [/index.html] names the entry [index.html] of the handler's directory. *)
Lemma translate_index (self : handler) :
  http_server.translate_path lib self "/index.html"
  = posixpath.join (directory self) "index.html".
Proof. reflexivity. Qed.

Lemma endswith_app_index (a : string) :
  PyStr.endswith (a ++ "index.html")%string "/" = false.
Proof.
  induction a as [|ch a IH].
  - reflexivity.
  - cbn [String.append PyStr.endswith]. rewrite IH, orb_false_r.
    cbn [String.eqb]. destruct (Ascii.eqb ch "/"); [|reflexivity].
    destruct a; reflexivity.
Qed.

Lemma index_is_no_directory_name (dir : string) :
  PyStr.endswith (posixpath.join dir "index.html") "/" = false.
Proof.
  unfold posixpath.join. cbn [String.prefix].
  destruct ((dir =? "")%string || PyStr.endswith dir "/").
  - apply endswith_app_index.
  - change (dir ++ "/" ++ "index.html")%string
      with (dir ++ String "/" "index.html")%string.
    replace (dir ++ String "/" "index.html")%string
      with ((dir ++ "/") ++ "index.html")%string.
    + apply endswith_app_index.
    + induction dir as [|ch dir IH]; [reflexivity|].
      cbn [String.append]. f_equal. exact IH.
Qed.

(** GET is dispatched to the override, which calls the inherited [do_GET]
    on the handler with its path replaced. *)
Lemma get_dispatch (line p : string) (hs : list (string * string))
    (who : string) (t : Z) (dir : string) :
  respond lib env (GET line p hs who t dir)
  = http_server.SimpleHTTPRequestHandler_do_GET lib env
      redirect_server.StopBrowsingHandler_log_message
      (set_path (GET line p hs who t dir) "/index.html").
Proof. reflexivity. Qed.

(** HEAD is dispatched to the inherited [do_HEAD]; the path stays. *)
Lemma head_dispatch (line p : string) (hs : list (string * string))
    (who : string) (t : Z) (dir : string) :
  respond lib env (HEAD line p hs who t dir)
  = http_server.SimpleHTTPRequestHandler_do_HEAD lib env
      redirect_server.StopBrowsingHandler_log_message
      (HEAD line p hs who t dir).
Proof. reflexivity. Qed.

(** Without an entry [index.html], GET is answered 404 with the error
    page, and nothing is logged. *)
Lemma get_without_index (line p : string) (hs : list (string * string))
    (who : string) (t : Z) (dir : string) :
  stat env (posixpath.join dir "index.html") = Absent ->
  respond lib env (GET line p hs who t dir)
  = mkServed [] (not_found lib false t).
Proof.
  intros Habsent. rewrite get_dispatch.
  change (set_path (GET line p hs who t dir) "/index.html")
    with (mkHandler line "GET" "/index.html" hs who t dir).
  unfold http_server.SimpleHTTPRequestHandler_do_GET, http_server.send_head.
  cbn [path]. rewrite translate_index. cbn [directory].
  unfold http_server.is_dir, http_server.send_file_head.
  rewrite Habsent.
  destruct (PyStr.endswith (posixpath.join dir "index.html") "/");
    reflexivity.
Qed.

(** With a readable file [index.html] and no [If-Modified-Since], GET is
    answered 200 with the content of the file. *)
Lemma get_with_index (line p : string) (hs : list (string * string))
    (who : string) (t : Z) (dir : string) (mtime : Z) (content : string) :
  stat env (posixpath.join dir "index.html")
    = RegularFile true mtime content ->
  get_header "If-Modified-Since" hs = None ->
  respond lib env (GET line p hs who t dir)
  = mkServed [] (found lib (posixpath.join dir "index.html") mtime content t).
Proof.
  intros Hfile Hfresh. rewrite get_dispatch.
  change (set_path (GET line p hs who t dir) "/index.html")
    with (mkHandler line "GET" "/index.html" hs who t dir).
  unfold http_server.SimpleHTTPRequestHandler_do_GET, http_server.send_head.
  cbn [path]. rewrite translate_index. cbn [directory].
  unfold http_server.is_dir, http_server.send_file_head.
  rewrite Hfile, index_is_no_directory_name.
  cbn [headers]. rewrite Hfresh. reflexivity.
Qed.

(** HEAD for a path that names nothing is answered 404, without a body. *)
Lemma head_of_absent (line p : string) (hs : list (string * string))
    (who : string) (t : Z) (dir : string) :
  stat env (http_server.translate_path lib (HEAD line p hs who t dir) p)
    = Absent ->
  respond lib env (HEAD line p hs who t dir)
  = mkServed [] (not_found lib true t).
Proof.
  intros Habsent. rewrite head_dispatch.
  unfold http_server.SimpleHTTPRequestHandler_do_HEAD, http_server.send_head.
  cbn [HEAD path].
  unfold http_server.is_dir, http_server.send_file_head.
  rewrite Habsent.
  destruct (PyStr.endswith _ "/"); reflexivity.
Qed.

(** [log_message] being [pass], no method of the class writes a log line,
    whatever the request. *)
Lemma handler_is_silent (self : handler) :
  logged (respond lib env self) = [].
Proof.
  unfold respond, http_server.handle_one_request.
  cbn [getattr log_message redirect_server.StopBrowsingHandler
       http_server.SimpleHTTPRequestHandler].
  destruct (("do_" ++ command self)%string =? "do_GET")%string.
  - unfold redirect_server.StopBrowsingHandler_do_GET,
      http_server.SimpleHTTPRequestHandler_do_GET, http_server.send_head,
      http_server.list_directory, http_server.send_file_head.
    repeat match goal with
           | |- context [if ?b then _ else _] => destruct b
           | |- context [match stat env ?f with _ => _ end] =>
               destruct (stat env f) as [|[|] ? ?|[?|]]
           end; reflexivity.
  - destruct (("do_" ++ command self)%string =? "do_HEAD")%string.
    + unfold http_server.SimpleHTTPRequestHandler_do_HEAD,
        http_server.send_head, http_server.list_directory,
        http_server.send_file_head.
      repeat match goal with
             | |- context [if ?b then _ else _] => destruct b
             | |- context [match stat env ?f with _ => _ end] =>
                 destruct (stat env f) as [|[|] ? ?|[?|]]
             end; reflexivity.
    + reflexivity.
Qed.

End Handler.

(** ** What a connection adds to the trace *)

Section Answers.

Variable lib : Lib.
Variable env : Env.

(** Serving a request writes its reply and nothing else. *)
Lemma answer_is_reply (n : Z) (d : string) (r : request) :
  socketserver.answer lib (the_server lib env n) d r
  = [Reply (reply (respond lib env
                     (socketserver.new_handler r d)))].
Proof.
  unfold socketserver.answer. cbn [RequestHandlerClass the_server].
  fold (respond lib env (socketserver.new_handler r d)).
  rewrite handler_is_silent. reflexivity.
Qed.

(** A connection leaves a reply, or the report of its socket error, or
    nothing. *)
Lemma handled_by_the_server (n : Z) (d : string) (a : arrival) :
  handled lib (the_server lib env n) d a
  = match a with
    | Connection r =>
        [Reply (reply (respond lib env (socketserver.new_handler r d)))]
    | Empty => []
    | Broken _ | Reset => [ErrorBlock OSError]
    end.
Proof.
  destruct a as [r|r| |]; cbn [handled]; try reflexivity.
  - apply answer_is_reply.
  - unfold socketserver.attempt. cbn [RequestHandlerClass the_server].
    fold (respond lib env (socketserver.new_handler r d)).
    rewrite handler_is_silent. reflexivity.
Qed.


Lemma statuses_app (a b : list effect) :
  statuses (a ++ b) = statuses a ++ statuses b.
Proof. apply flat_map_app. Qed.



(** The effects of handling connections are replies and error reports. *)
Lemma answers_effects (n : Z) (d : string) (arriving : list arrival)
    (e : effect) :
  In e (answers lib (the_server lib env n) d arriving) ->
  (exists r, e = Reply r) \/ e = ErrorBlock OSError.
Proof.
  induction arriving as [|a arriving IH]; [intros []|].
  cbn [answers flat_map]. rewrite handled_by_the_server.
  intros Hin. apply in_app_or in Hin. destruct Hin as [Hin|Hin].
  - destruct a as [r|r| |]; cbn [In] in Hin.
    + destruct Hin as [<-|[]]. left. eexists. reflexivity.
    + destruct Hin as [<-|[]]. right. reflexivity.
    + destruct Hin.
    + destruct Hin as [<-|[]]. right. reflexivity.
  - exact (IH Hin).
Qed.

(** No index page: every GET served is answered 404. *)
Lemma answers_without_index (n : Z) (d : string) (reqs : list request) :
  stat env (posixpath.join d "index.html") = Absent ->
  Forall (fun r => req_command r = "GET"%string) reqs ->
  statuses (answers lib (the_server lib env n) d (map Connection reqs))
  = map (fun _ => 404%Z) reqs.
Proof.
  intros Habsent Hget.
  induction Hget as [|r reqs Hr _ IH]; [reflexivity|].
  cbn [answers flat_map map handled].
  rewrite statuses_app, answer_is_reply.
  fold (answers lib (the_server lib env n) d (map Connection reqs)).
  rewrite IH.
  destruct r as [line cmd p hs who t]. cbn [req_command] in Hr. subst cmd.
  change (socketserver.new_handler (mkRequest line "GET" p hs who t) d)
    with (GET line p hs who t d).
  rewrite (get_without_index lib env line p hs who t d Habsent).
  reflexivity.
Qed.

End Answers.

Lemma stop_lines_app (a b : list effect) :
  stop_lines (a ++ b) = (stop_lines a + stop_lines b)%nat.
Proof. unfold stop_lines. rewrite filter_app, length_app. reflexivity. Qed.

Lemma stop_lines_answers (lib : Lib) (env : Env) (n : Z) (d : string)
    (arriving : list arrival) :
  stop_lines (answers lib (the_server lib env n) d arriving) = 0%nat.
Proof.
  induction arriving as [|a arriving IH]; [reflexivity|].
  cbn [answers flat_map]. rewrite stop_lines_app, handled_by_the_server.
  fold (answers lib (the_server lib env n) d arriving). rewrite IH.
  destruct a; reflexivity.
Qed.

(** ** The properties of the responder *)

(** The demonstration server starts on port 8080 in [/srv/redirect]. *)
Lemma demo_starts :
  starts Demo.env "/" "8080" "/srv/redirect" 8080 "/srv/redirect".
Proof. unfold starts. repeat split; try reflexivity; discriminate. Qed.

(** C1. Every GET request, whatever its path (query string included), its
    request line and its headers, is dispatched to the override, which sets
    the path of the handler to [/index.html] and then calls the inherited
    static-file [do_GET].  So, for a fixed file system, serving GET [p] does
    to the outside what serving GET [/index.html] with the same headers
    does; in particular the two bodies are equal. *)
Theorem every_get_serves_index (lib : Lib) (env : Env) (n : Z)
    (line line' p : string) (hs : list (string * string)) (who : string)
    (t : Z) (dir : string) :
  respond lib env (GET line p hs who t dir)
    = http_server.SimpleHTTPRequestHandler_do_GET lib env
        redirect_server.StopBrowsingHandler_log_message
        (GET line "/index.html" hs who t dir)
  /\ socketserver.answer lib (the_server lib env n) dir
       (mkRequest line "GET" p hs who t)
     = socketserver.answer lib (the_server lib env n) dir
         (mkRequest line' "GET" "/index.html" hs who t)
  /\ body (reply (respond lib env (GET line p hs who t dir)))
     = body (reply (respond lib env (GET line' "/index.html" hs who t dir))).
Proof.
  split; [reflexivity|]. split; reflexivity.
Qed.

(** C2. When [sys.argv] does not have exactly three entries (the program
    name and two values), the run consists of the usage line on standard
    output and exit status 1: no directory change, no bind. *)
Theorem wrong_argument_count_prints_usage (lib : Lib) (env : Env)
    (start : string) (argv : list string) (arriving : list arrival)
    (last : ending) :
  length argv <> 3%nat ->
  run lib env start argv arriving last
  = (Exited 1, [Stdout "Usage: redirect_server.py <port> <redirect_dir>"]).
Proof.
  intros Hlen.
  unfold run, redirect_server.main, bind at 1.
  apply Nat.eqb_neq in Hlen. rewrite Hlen. reflexivity.
Qed.

Lemma wrong_argument_count_witness :
  length ["redirect_server.py"; "8080"]%string <> 3%nat
  /\ run Demo.lib Demo.env "/" ["redirect_server.py"; "8080"]%string
       [Connection (Demo.get "/")] Waiting
     = (Exited 1, [Stdout "Usage: redirect_server.py <port> <redirect_dir>"]).
Proof.
  split; [discriminate|].
  apply wrong_argument_count_prints_usage. discriminate.
Defined.

(** C3, as the code has it.  With two arguments of which the first is no
    integer, [int] raises [ValueError] before anything else is done: the
    run consists of the traceback and exit status 1.  Nothing is printed on
    standard output, the directory is not changed and no socket is bound. *)
Theorem unparseable_port_raises (lib : Lib) (env : Env) (start : string)
    (prog p d : string) (arriving : list arrival) (last : ending) :
  int_of_str env p = None ->
  run lib env start [prog; p; d] arriving last
  = (Exited 1, [Traceback ValueError]).
Proof.
  intros Hint.
  unfold run, redirect_server.main, bind, redirect_server.py_int, raise.
  cbn [length Nat.eqb negb nth]. rewrite Hint. reflexivity.
Qed.

Lemma unparseable_port_witness :
  int_of_str Demo.env "eighty" = None
  /\ run Demo.lib Demo.env "/" (Demo.argv "eighty" "/srv/redirect")
       [] Waiting
     = (Exited 1, [Traceback ValueError]).
Proof.
  split; [reflexivity|].
  apply unparseable_port_raises. reflexivity.
Defined.

(** C3 as stated fails at the port argument [eighty]: the run is not one
    that prints the usage line, exits with a status other than 0 and binds
    no socket, because no usage line is printed. *)
Lemma unparseable_port_prints_no_usage :
  int_of_str Demo.env "eighty" = None
  /\ ~ (In (Stdout redirect_server.usage)
           (snd (run Demo.lib Demo.env "/"
                   (Demo.argv "eighty" "/srv/redirect") [] Waiting))
        /\ fst (run Demo.lib Demo.env "/"
                  (Demo.argv "eighty" "/srv/redirect") [] Waiting)
           <> Exited 0
        /\ forall host port,
             ~ In (Bind host port)
                  (snd (run Demo.lib Demo.env "/"
                          (Demo.argv "eighty" "/srv/redirect") []
                          Waiting))).
Proof.
  split; [reflexivity|].
  intros [Husage _]. cbn in Husage.
  destruct Husage as [H|[]]. discriminate H.
Qed.

(** C4. When the redirect directory has no entry [index.html], every GET
    request, whatever its path, is answered with status 404, and the
    process is still serving after any number of them: each request of the
    sequence gets its reply. *)
Theorem missing_index_is_not_found (lib : Lib) (env : Env)
    (start prog p d : string) (n : Z) (c : string) (reqs : list request) :
  starts env start p d n c ->
  stat env (posixpath.join c "index.html") = Absent ->
  Forall (fun r => req_command r = "GET"%string) reqs ->
  fst (run lib env start [prog; p; d] (map Connection reqs) Waiting)
    = Serving
  /\ statuses (snd (run lib env start [prog; p; d] (map Connection reqs)
                      Waiting))
     = map (fun _ => 404%Z) reqs.
Proof.
  intros Hstarts Habsent Hget.
  rewrite (run_serving lib env start prog p d n c _ Hstarts).
  split; [reflexivity|].
  cbn [snd]. rewrite statuses_app.
  rewrite (answers_without_index lib env n c reqs Habsent Hget).
  reflexivity.
Qed.

Lemma missing_index_witness :
  starts Demo.env "/" "8080" "/srv/empty" 8080 "/srv/empty"
  /\ stat Demo.env (posixpath.join "/srv/empty" "index.html") = Absent
  /\ fst (run Demo.lib Demo.env "/" (Demo.argv "8080" "/srv/empty")
            (map Connection
               [Demo.get "/"; Demo.get "/a/b?x=1"; Demo.get "/index.html"])
            Waiting)
     = Serving
  /\ statuses (snd (run Demo.lib Demo.env "/" (Demo.argv "8080" "/srv/empty")
                      (map Connection
                         [Demo.get "/"; Demo.get "/a/b?x=1";
                          Demo.get "/index.html"])
                      Waiting))
     = [404; 404; 404]%Z.
Proof.
  assert (Hstarts : starts Demo.env "/" "8080" "/srv/empty" 8080 "/srv/empty")
    by (unfold starts; repeat split; try reflexivity; discriminate).
  split; [exact Hstarts|]. split; [reflexivity|].
  apply (missing_index_is_not_found Demo.lib Demo.env "/"
           "redirect_server.py" "8080" "/srv/empty" 8080 "/srv/empty"
           [Demo.get "/"; Demo.get "/a/b?x=1"; Demo.get "/index.html"]
           Hstarts).
  - reflexivity.
  - repeat constructor.
Defined.

(** C5. With a port that parses and a directory [os.chdir] refuses, the
    run consists of the attempted directory change, the traceback of the
    [OSError] and exit status 1.  No socket is bound: the bind comes after
    the directory change in [main] and is not reached. *)
Theorem missing_directory_never_binds (lib : Lib) (env : Env)
    (start prog p d : string) (n : Z) (arriving : list arrival)
    (last : ending) :
  int_of_str env p = Some n ->
  chdir_to env start d = None ->
  run lib env start [prog; p; d] arriving last
    = (Exited 1, [Chdir d; Traceback OSError])
  /\ forall host port,
       ~ In (Bind host port)
            (snd (run lib env start [prog; p; d] arriving last)).
Proof.
  intros Hint Hdir.
  assert (Hrun : run lib env start [prog; p; d] arriving last
                 = (Exited 1, [Chdir d; Traceback OSError])).
  { unfold run, redirect_server.main, bind, redirect_server.py_int,
      redirect_server.os_chdir, getcwd, emit, raise, ret, bind.
    cbn [length Nat.eqb negb nth]. rewrite Hint. cbn [cwd trace].
    rewrite Hdir. reflexivity. }
  split; [exact Hrun|].
  intros host port. rewrite Hrun. cbn [snd In].
  intros [H|[H|[]]]; discriminate H.
Qed.

Lemma missing_directory_witness :
  int_of_str Demo.env "8080" = Some 8080%Z
  /\ chdir_to Demo.env "/" "/srv/gone" = None
  /\ run Demo.lib Demo.env "/" (Demo.argv "8080" "/srv/gone")
       [Connection (Demo.get "/")] Waiting
     = (Exited 1, [Chdir "/srv/gone"; Traceback OSError])
  /\ forall host port,
       ~ In (Bind host port)
            (snd (run Demo.lib Demo.env "/" (Demo.argv "8080" "/srv/gone")
                    [Connection (Demo.get "/")] Waiting)).
Proof.
  split; [reflexivity|]. split; [reflexivity|].
  apply (missing_directory_never_binds Demo.lib Demo.env "/"
           "redirect_server.py" "8080" "/srv/gone" 8080); reflexivity.
Defined.




(** C7. Once started, the accept loop goes on for as long as connections
    arrive, failing ones included: with no interrupt the process is still
    serving after any number of them, and a run that has ended was
    interrupted and ended with status 0.  An interrupt delivered while the
    loop waits is caught in [main]: the run ends with the stop line and the
    closing of the socket, the stop line is printed once, and no traceback
    is written. *)
Theorem interrupt_ends_the_loop (lib : Lib) (env : Env)
    (start prog p d : string) (n : Z) (c : string) :
  starts env start p d n c ->
  (forall arriving,
     fst (run lib env start [prog; p; d] arriving Waiting) = Serving)
  /\ (forall arriving last code,
        fst (run lib env start [prog; p; d] arriving last) = Exited code ->
        last = Interrupt /\ code = 0%Z)
  /\ (forall arriving,
        run lib env start [prog; p; d] arriving Interrupt
        = (Exited 0,
           started d n ++ answers lib (the_server lib env n) c arriving
             ++ [Stdout "Server stopped"; Close])
        /\ stop_lines (snd (run lib env start [prog; p; d] arriving
                              Interrupt)) = 1%nat
        /\ forall e,
             ~ In (Traceback e)
                  (snd (run lib env start [prog; p; d] arriving Interrupt))).
Proof.
  intros Hstarts. split; [|split].
  - intros arriving.
    rewrite (run_serving lib env start prog p d n c arriving Hstarts).
    reflexivity.
  - intros arriving last code. destruct last.
    + rewrite (run_serving lib env start prog p d n c arriving Hstarts).
      discriminate.
    + rewrite (run_interrupted lib env start prog p d n c arriving Hstarts).
      cbn [fst]. intros [= <-]. split; reflexivity.
  - intros arriving.
    rewrite (run_interrupted lib env start prog p d n c arriving Hstarts).
    split; [reflexivity|]. split.
    + cbn [snd]. rewrite !stop_lines_app, stop_lines_answers. reflexivity.
    + intros e Hin. cbn [snd] in Hin.
      apply in_app_or in Hin. destruct Hin as [Hs|Hin].
      * cbn [started In] in Hs.
        destruct Hs as [H|[H|[H|[H|[]]]]]; discriminate H.
      * apply in_app_or in Hin. destruct Hin as [Ha|He].
        -- apply answers_effects in Ha. destruct Ha as [[r Hr]|Hr];
             discriminate Hr.
        -- destruct He as [H|[H|[]]]; discriminate H.
Qed.

Lemma interrupt_ends_the_loop_witness :
  starts Demo.env "/" "8080" "/srv/redirect" 8080 "/srv/redirect"
  /\ fst (run Demo.lib Demo.env "/" (Demo.argv "8080" "/srv/redirect")
            [Connection (Demo.get "/"); Broken (Demo.get "/again")]
            Waiting) = Serving
  /\ fst (run Demo.lib Demo.env "/" (Demo.argv "8080" "/srv/redirect")
            [Connection (Demo.get "/")] Interrupt)
     = Exited 0
  /\ stop_lines (snd (run Demo.lib Demo.env "/"
                        (Demo.argv "8080" "/srv/redirect")
                        [Connection (Demo.get "/")] Interrupt)) = 1%nat.
Proof.
  split; [exact demo_starts|].
  destruct (interrupt_ends_the_loop Demo.lib Demo.env "/" "redirect_server.py"
              "8080" "/srv/redirect" 8080 "/srv/redirect" demo_starts)
    as (Hserving & _ & Hstop).
  split; [apply Hserving|].
  destruct (Hstop [Connection (Demo.get "/")]) as (Hrun & Honce & _).
  split; [exact (f_equal fst Hrun) | exact Honce].
Defined.

(** C8. The port is not checked before it is used.  For every integer the
    port argument parses to (0, negative and above 65535 included), once
    the directory change has succeeded the run goes on to call bind with
    the empty host and that very integer. *)
Theorem port_reaches_bind_unchecked (lib : Lib) (env : Env)
    (start prog p d : string) (n : Z) (c : string)
    (arriving : list arrival) (last : ending) :
  int_of_str env p = Some n ->
  chdir_to env start d = Some c ->
  exists rest,
    snd (run lib env start [prog; p; d] arriving last)
    = Chdir d :: Bind "" n :: rest.
Proof.
  intros Hint Hdir.
  destruct (run_behaviour lib env start [prog; p; d] arriving last)
    as [Hlen
       | prog' p' d' Hargv Hint'
       | prog' p' d' n' Hargv Hint' Hdir'
       | prog' p' d' n' c' Hargv Hint' Hdir' Hrange
       | prog' p' d' n' c' Hargv Hint' Hdir' Hrange Hfree
       | prog' p' d' n' c' Hargv (Hint' & Hdir' & _) Hlast
       | prog' p' d' n' c' Hargv (Hint' & Hdir' & _) Hlast];
    try (exfalso; apply Hlen; reflexivity);
    injection Hargv as <- <- <-; try congruence;
    rewrite Hint in Hint'; injection Hint' as <-;
    cbn [snd started app]; eexists; reflexivity.
Qed.

Lemma port_reaches_bind_witness :
  int_of_str Demo.env "70000" = Some 70000%Z
  /\ int_of_str Demo.env "-1" = Some (-1)%Z
  /\ int_of_str Demo.env "0" = Some 0%Z
  /\ chdir_to Demo.env "/" "/srv/redirect" = Some "/srv/redirect"%string
  /\ (exists rest,
        snd (run Demo.lib Demo.env "/" (Demo.argv "70000" "/srv/redirect")
               [] Waiting)
        = Chdir "/srv/redirect" :: Bind "" 70000 :: rest)
  /\ (exists rest,
        snd (run Demo.lib Demo.env "/" (Demo.argv "-1" "/srv/redirect")
               [] Waiting)
        = Chdir "/srv/redirect" :: Bind "" (-1) :: rest)
  /\ (exists rest,
        snd (run Demo.lib Demo.env "/" (Demo.argv "0" "/srv/redirect")
               [] Waiting)
        = Chdir "/srv/redirect" :: Bind "" 0 :: rest).
Proof.
  repeat (split; [reflexivity|]).
  split; [|split].
  - apply (port_reaches_bind_unchecked Demo.lib Demo.env "/"
             "redirect_server.py" "70000" "/srv/redirect" 70000
             "/srv/redirect"); reflexivity.
  - apply (port_reaches_bind_unchecked Demo.lib Demo.env "/"
             "redirect_server.py" "-1" "/srv/redirect" (-1)
             "/srv/redirect"); reflexivity.
  - apply (port_reaches_bind_unchecked Demo.lib Demo.env "/"
             "redirect_server.py" "0" "/srv/redirect" 0
             "/srv/redirect"); reflexivity.
Defined.

(** C9. Only [do_GET] is overridden.  A HEAD request is dispatched to the
    [do_HEAD] inherited from [SimpleHTTPRequestHandler], with the path as
    requested.  So when the directory holds a readable [index.html] and the
    requested path names nothing in it, HEAD of that path is answered 404
    while GET of the same path (sent without [If-Modified-Since]) is
    answered 200 with the content of [index.html]. *)
Theorem head_keeps_its_path (lib : Lib) (env : Env) (line line' p : string)
    (hs : list (string * string)) (who : string) (t : Z) (dir : string)
    (mtime : Z) (content : string) :
  stat env (http_server.translate_path lib (HEAD line p hs who t dir) p)
    = Absent ->
  stat env (posixpath.join dir "index.html")
    = RegularFile true mtime content ->
  get_header "If-Modified-Since" hs = None ->
  getattr (redirect_server.StopBrowsingHandler lib env) "do_HEAD"
    = Some (http_server.SimpleHTTPRequestHandler_do_HEAD lib env)
  /\ respond lib env (HEAD line p hs who t dir)
     = fst (http_server.send_head lib env
              redirect_server.StopBrowsingHandler_log_message
              (HEAD line p hs who t dir))
  /\ status (reply (respond lib env (HEAD line p hs who t dir))) = 404%Z
  /\ status (reply (respond lib env (GET line' p hs who t dir))) = 200%Z
  /\ body (reply (respond lib env (GET line' p hs who t dir))) = content.
Proof.
  intros Habsent Hfile Hfresh.
  split; [reflexivity|]. split; [reflexivity|].
  rewrite (head_of_absent lib env line p hs who t dir Habsent).
  rewrite (get_with_index lib env line' p hs who t dir mtime content
             Hfile Hfresh).
  repeat split.
Qed.

Lemma head_keeps_its_path_witness :
  stat Demo.env "/srv/redirect/nope" = Absent
  /\ stat Demo.env "/srv/redirect/index.html"
     = RegularFile true 1700000000 Demo.page
  /\ status (reply (respond Demo.lib Demo.env
                      (HEAD "HEAD /nope HTTP/1.1" "/nope" [] "192.0.2.7" 7
                            "/srv/redirect"))) = 404%Z
  /\ status (reply (respond Demo.lib Demo.env
                      (GET "GET /nope HTTP/1.1" "/nope" [] "192.0.2.7" 7
                           "/srv/redirect"))) = 200%Z
  /\ body (reply (respond Demo.lib Demo.env
                    (GET "GET /nope HTTP/1.1" "/nope" [] "192.0.2.7" 7
                         "/srv/redirect"))) = Demo.page.
Proof.
  split; [reflexivity|]. split; [reflexivity|].
  apply (head_keeps_its_path Demo.lib Demo.env "HEAD /nope HTTP/1.1"
           "GET /nope HTTP/1.1" "/nope" [] "192.0.2.7" 7 "/srv/redirect"
           1700000000 Demo.page);
    reflexivity.
Defined.



(** ** Further properties of the script *)

(** X1. A port outside 0..65535 is caught by nobody but the socket layer:
    the run changes directory, calls bind, closes the socket and ends with
    the traceback of [OverflowError] and status 1.  The start-up line is not
    printed. *)
Theorem port_out_of_range_is_refused (lib : Lib) (env : Env)
    (start prog p d : string) (n : Z) (c : string)
    (arriving : list arrival) (last : ending) :
  int_of_str env p = Some n ->
  chdir_to env start d = Some c ->
  (n < 0 \/ 65535 < n)%Z ->
  run lib env start [prog; p; d] arriving last
  = (Exited 1, [Chdir d; Bind "" n; Close; Traceback OverflowError]).
Proof.
  intros Hint Hdir Hrange.
  apply (behaviour_unique lib env start [prog; p; d] arriving last).
  - apply run_behaviour.
  - eapply port_out_of_range; eauto.
Qed.

Lemma port_out_of_range_witness :
  int_of_str Demo.env "65536" = Some 65536%Z
  /\ chdir_to Demo.env "/" "/srv/redirect" = Some "/srv/redirect"%string
  /\ (65536 < 0 \/ 65535 < 65536)%Z
  /\ run Demo.lib Demo.env "/" (Demo.argv "65536" "/srv/redirect")
       [Connection (Demo.get "/")] Waiting
     = (Exited 1,
        [Chdir "/srv/redirect"; Bind "" 65536; Close;
         Traceback OverflowError]).
Proof.
  split; [reflexivity|]. split; [reflexivity|].
  split; [right; reflexivity|].
  apply (port_out_of_range_is_refused Demo.lib Demo.env "/"
           "redirect_server.py" "65536" "/srv/redirect" 65536
           "/srv/redirect");
    [reflexivity | reflexivity | right; reflexivity].
Defined.

(** X2. When the address cannot be bound (in use, or not permitted), the
    run ends with the traceback of [OSError] and status 1 after closing the
    socket; it never listens, prints nothing on standard output and serves
    no connection. *)
Theorem refused_address_ends_the_run (lib : Lib) (env : Env)
    (start prog p d : string) (n : Z) (c : string)
    (arriving : list arrival) (last : ending) :
  int_of_str env p = Some n ->
  chdir_to env start d = Some c ->
  (0 <= n <= 65535)%Z ->
  bindable env "" n = false ->
  run lib env start [prog; p; d] arriving last
  = (Exited 1, [Chdir d; Bind "" n; Close; Traceback OSError]).
Proof.
  intros Hint Hdir Hrange Hbusy.
  apply (behaviour_unique lib env start [prog; p; d] arriving last).
  - apply run_behaviour.
  - eapply address_refused; eauto.
Qed.

Lemma refused_address_witness :
  int_of_str Faults.busy "80" = Some 80%Z
  /\ chdir_to Faults.busy "/" "/srv/redirect" = Some "/srv/redirect"%string
  /\ (0 <= 80 <= 65535)%Z
  /\ bindable Faults.busy "" 80 = false
  /\ run Demo.lib Faults.busy "/" (Demo.argv "80" "/srv/redirect")
       [Connection (Demo.get "/")] Interrupt
     = (Exited 1,
        [Chdir "/srv/redirect"; Bind "" 80; Close; Traceback OSError]).
Proof.
  split; [reflexivity|]. split; [reflexivity|].
  split; [split; discriminate|]. split; [reflexivity|].
  apply (refused_address_ends_the_run Demo.lib Faults.busy "/"
           "redirect_server.py" "80" "/srv/redirect" 80 "/srv/redirect");
    [reflexivity | reflexivity | split; discriminate | reflexivity].
Defined.

(** X7. Nothing but the usage line is printed before the server listens:
    when standard output holds any other line, the run began by changing
    directory, binding, listening and announcing the port it bound, in this
    order. *)
Theorem announcement_follows_listen (lib : Lib) (env : Env)
    (start : string) (argv : list string) (arriving : list arrival)
    (last : ending) (line : string) :
  In (Stdout line) (snd (run lib env start argv arriving last)) ->
  line <> "Usage: redirect_server.py <port> <redirect_dir>"%string ->
  exists d n rest,
    snd (run lib env start argv arriving last)
    = Chdir d :: Bind "" n :: Listen
        :: Stdout ("StopBrowsing redirect server running on port "
                     ++ PyStr.of_Z n)%string
        :: rest.
Proof.
  intros Hin Hline.
  destruct (run_behaviour lib env start argv arriving last)
    as [Hlen
       | prog p d Hargv Hint
       | prog p d n Hargv Hint Hdir
       | prog p d n c Hargv Hint Hdir Hrange
       | prog p d n c Hargv Hint Hdir Hrange Hfree
       | prog p d n c Hargv Hstarts Hlast
       | prog p d n c Hargv Hstarts Hlast];
    cbn [snd started app] in Hin |- *;
    try (eexists _, _, _; reflexivity);
    exfalso;
    repeat match goal with
           | H : In _ (_ :: _) |- _ => destruct H as [H|H]
           | H : In _ [] |- _ => destruct H
           end;
    try discriminate.
  apply Hline. injection Hin as <-. reflexivity.
Qed.

Lemma announcement_follows_listen_witness :
  In (Stdout "Server stopped")
     (snd (run Demo.lib Demo.env "/" (Demo.argv "8080" "/srv/redirect")
             [] Interrupt))
  /\ exists d n rest,
       snd (run Demo.lib Demo.env "/" (Demo.argv "8080" "/srv/redirect")
              [] Interrupt)
       = Chdir d :: Bind "" n :: Listen
           :: Stdout ("StopBrowsing redirect server running on port "
                        ++ PyStr.of_Z n)%string
           :: rest.
Proof.
  assert (Hin : In (Stdout "Server stopped")
                   (snd (run Demo.lib Demo.env "/"
                           (Demo.argv "8080" "/srv/redirect") []
                           Interrupt)))
    by (do 4 right; left; reflexivity).
  split; [exact Hin|].
  apply (announcement_follows_listen Demo.lib Demo.env "/"
           (Demo.argv "8080" "/srv/redirect") [] Interrupt "Server stopped"
           Hin).
  discriminate.
Defined.

(** X8. The listening socket is closed on every way out: a run that has
    called bind and has ended has closed the socket as its last act before
    the interpreter's report, if any.  A run that is still serving has
    listened and has not closed it. *)
Theorem socket_is_closed_on_exit (lib : Lib) (env : Env) (start : string)
    (argv : list string) (arriving : list arrival) (last : ending) :
  (forall code host port,
     fst (run lib env start argv arriving last) = Exited code ->
     In (Bind host port) (snd (run lib env start argv arriving last)) ->
     exists before report,
       snd (run lib env start argv arriving last) = before ++ Close :: report
       /\ (report = [] \/ exists e, report = [Traceback e]))
  /\ (fst (run lib env start argv arriving last) = Serving ->
      In Listen (snd (run lib env start argv arriving last))
      /\ ~ In Close (snd (run lib env start argv arriving last))).
Proof.
  destruct (run_behaviour lib env start argv arriving last)
    as [Hlen
       | prog p d Hargv Hint
       | prog p d n Hargv Hint Hdir
       | prog p d n c Hargv Hint Hdir Hrange
       | prog p d n c Hargv Hint Hdir Hrange Hfree
       | prog p d n c Hargv Hstarts Hlast
       | prog p d n c Hargv Hstarts Hlast];
    cbn [fst snd]; (split; [intros code host port Hexit Hin | intros Hserving]);
    try discriminate.
  - destruct Hin as [H|[]]; discriminate H.
  - destruct Hin as [H|[]]; discriminate H.
  - destruct Hin as [H|[H|[]]]; discriminate H.
  - exists [Chdir d; Bind "" n], [Traceback OverflowError].
    split; [reflexivity|]. right. eexists. reflexivity.
  - exists [Chdir d; Bind "" n], [Traceback OSError].
    split; [reflexivity|]. right. eexists. reflexivity.
  - split.
    + cbn [started app In]. right. right. left. reflexivity.
    + intros Hin. apply in_app_or in Hin. destruct Hin as [Hin|Hin].
      * cbn [started In] in Hin.
        destruct Hin as [H|[H|[H|[H|[]]]]]; discriminate H.
      * apply answers_effects in Hin. destruct Hin as [[r Hr]|Hr];
          discriminate Hr.
  - exists (started d n ++ answers lib (the_server lib env n) c arriving
              ++ [Stdout redirect_server.stopped]), [].
    split; [|left; reflexivity].
    rewrite <- !app_assoc. reflexivity.
Qed.

(** ** Further properties of the handler *)

Section MoreHandler.

Variable lib : Lib.
Variable env : Env.

(** What the overridden [do_GET] computes, whatever the path asked for. *)
Lemma get_unfolds (line p : string) (hs : list (string * string))
    (who : string) (t : Z) (dir : string) :
  respond lib env (GET line p hs who t dir)
  = http_server.SimpleHTTPRequestHandler_do_GET lib env
      redirect_server.StopBrowsingHandler_log_message
      (mkHandler line "GET" "/index.html" hs who t dir).
Proof. reflexivity. Qed.

(** [send_head] looks at the path, the headers, the clock and the
    directory of the handler; with logging off, the method, the request
    line and the client do not show in the head it sends, nor in the file
    it opens. *)
Lemma send_head_ignores_command (line line' cmd cmd' p : string)
    (hs : list (string * string)) (who who' : string) (t : Z)
    (dir : string) :
  head_of (reply (fst (http_server.send_head lib env
                         redirect_server.StopBrowsingHandler_log_message
                         (mkHandler line cmd p hs who t dir))))
  = head_of (reply (fst (http_server.send_head lib env
                           redirect_server.StopBrowsingHandler_log_message
                           (mkHandler line' cmd' p hs who' t dir))))
  /\ snd (http_server.send_head lib env
            redirect_server.StopBrowsingHandler_log_message
            (mkHandler line cmd p hs who t dir))
     = snd (http_server.send_head lib env
              redirect_server.StopBrowsingHandler_log_message
              (mkHandler line' cmd' p hs who' t dir)).
Proof.
  unfold http_server.send_head, http_server.list_directory,
    http_server.send_file_head, http_server.translate_path.
  cbn [path headers directory now].
  repeat match goal with
         | |- context [if ?b then _ else _] => destruct b
         | |- context [match stat env ?f with _ => _ end] =>
             destruct (stat env f) as [|[|] ? ?|[?|]]
         end; split; reflexivity.
Qed.

(** A HEAD reply has no body, whatever is asked for. *)
Lemma head_reply_is_bare (line p : string) (hs : list (string * string))
    (who : string) (t : Z) (dir : string) :
  body (reply (respond lib env (HEAD line p hs who t dir))) = ""%string.
Proof.
  rewrite head_dispatch.
  unfold http_server.SimpleHTTPRequestHandler_do_HEAD, http_server.send_head,
    http_server.list_directory, http_server.send_file_head.
  cbn [HEAD path headers directory now].
  repeat match goal with
         | |- context [if ?b then _ else _] => destruct b
         | |- context [match stat env ?f with _ => _ end] =>
             destruct (stat env f) as [|[|] ? ?|[?|]]
         end; reflexivity.
Qed.

End MoreHandler.

Lemma bodies_app (a b : list effect) :
  bodies (a ++ b) = bodies a ++ bodies b.
Proof. apply flat_map_app. Qed.

(** X11. When the redirect directory holds a readable [index.html], every
    GET sent without [If-Modified-Since], whatever its path, is answered
    200 with exactly the content of that file, an empty file included. *)
Theorem present_index_is_served (lib : Lib) (env : Env)
    (start prog p d : string) (n : Z) (c : string) (mtime : Z)
    (content : string) (reqs : list request) :
  starts env start p d n c ->
  stat env (posixpath.join c "index.html") = RegularFile true mtime content ->
  Forall (fun r => req_command r = "GET"%string
                   /\ get_header "If-Modified-Since" (req_headers r) = None)
         reqs ->
  statuses (snd (run lib env start [prog; p; d] (map Connection reqs)
                   Waiting))
    = map (fun _ => 200%Z) reqs
  /\ bodies (snd (run lib env start [prog; p; d] (map Connection reqs)
                    Waiting))
     = map (fun _ => content) reqs.
Proof.
  intros Hstarts Hfile Hget.
  rewrite (run_serving lib env start prog p d n c _ Hstarts).
  cbn [snd]. rewrite statuses_app, bodies_app.
  cbn [started statuses bodies flat_map app].
  fold (statuses (answers lib (the_server lib env n) c
                    (map Connection reqs))).
  fold (bodies (answers lib (the_server lib env n) c (map Connection reqs))).
  induction Hget as [|r reqs [Hcmd Hfresh] _ IH]; [split; reflexivity|].
  cbn [answers flat_map map handled]. rewrite statuses_app, bodies_app.
  fold (answers lib (the_server lib env n) c (map Connection reqs)).
  destruct IH as [-> ->]. rewrite answer_is_reply.
  destruct r as [line cmd q hs who t].
  cbn [req_command req_headers] in Hcmd, Hfresh. subst cmd.
  change (socketserver.new_handler (mkRequest line "GET" q hs who t) c)
    with (GET line q hs who t c).
  rewrite (get_with_index lib env line q hs who t c mtime content
             Hfile Hfresh).
  split; reflexivity.
Qed.

Lemma present_index_witness :
  starts Demo.env "/" "8080" "/srv/redirect" 8080 "/srv/redirect"
  /\ stat Demo.env (posixpath.join "/srv/redirect" "index.html")
     = RegularFile true 1700000000 Demo.page
  /\ statuses (snd (run Demo.lib Demo.env "/"
                      (Demo.argv "8080" "/srv/redirect")
                      (map Connection [Demo.get "/"; Demo.get "/x/y?z=1"])
                      Waiting))
     = [200; 200]%Z
  /\ bodies (snd (run Demo.lib Demo.env "/"
                    (Demo.argv "8080" "/srv/redirect")
                    (map Connection [Demo.get "/"; Demo.get "/x/y?z=1"])
                    Waiting))
     = [Demo.page; Demo.page].
Proof.
  split; [exact demo_starts|]. split; [reflexivity|].
  apply (present_index_is_served Demo.lib Demo.env "/" "redirect_server.py"
           "8080" "/srv/redirect" 8080 "/srv/redirect" 1700000000 Demo.page
           [Demo.get "/"; Demo.get "/x/y?z=1"] demo_starts).
  - reflexivity.
  - repeat constructor.
Defined.

(** X12. A conditional GET is honoured for every path: with an
    [If-Modified-Since] date that parses and is not before the modification
    time of [index.html], and no [If-None-Match], the answer is 304 without
    a body and without the file's headers. *)
Theorem unchanged_index_is_not_resent (lib : Lib) (env : Env)
    (line p : string) (hs : list (string * string)) (who : string) (t : Z)
    (dir : string) (mtime : Z) (content since : string) (ims : Z) :
  stat env (posixpath.join dir "index.html")
    = RegularFile true mtime content ->
  get_header "If-Modified-Since" hs = Some since ->
  get_header "If-None-Match" hs = None ->
  parsedate_utc lib since = Some ims ->
  (mtime <= ims)%Z ->
  respond lib env (GET line p hs who t dir)
  = mkServed [] (not_modified lib t).
Proof.
  intros Hfile Hsince Hnone Hdate Hold. rewrite get_unfolds.
  unfold http_server.SimpleHTTPRequestHandler_do_GET, http_server.send_head.
  cbn [path]. rewrite translate_index. cbn [directory].
  unfold http_server.is_dir, http_server.send_file_head.
  rewrite Hfile, index_is_no_directory_name.
  cbn [headers]. rewrite Hsince, Hnone, Hdate.
  apply Z.leb_le in Hold. rewrite Hold. reflexivity.
Qed.

Lemma unchanged_index_witness :
  stat Demo.env (posixpath.join "/srv/redirect" "index.html")
    = RegularFile true 1700000000 Demo.page
  /\ get_header "If-Modified-Since" [("if-modified-since", "1700000050")]
     = Some "1700000050"%string
  /\ parsedate_utc Faults.dated "1700000050" = Some 1700000050%Z
  /\ respond Faults.dated Demo.env
       (GET "GET /a HTTP/1.1" "/a" [("if-modified-since", "1700000050")]
            "192.0.2.7" 1700000100 "/srv/redirect")
     = mkServed [] (not_modified Faults.dated 1700000100).
Proof.
  split; [reflexivity|]. split; [reflexivity|]. split; [reflexivity|].
  apply (unchanged_index_is_not_resent Faults.dated Demo.env
           "GET /a HTTP/1.1" "/a" [("if-modified-since", "1700000050")]
           "192.0.2.7" 1700000100 "/srv/redirect" 1700000000 Demo.page
           "1700000050" 1700000050);
    try reflexivity.
  discriminate.
Defined.

(** X13. An [index.html] that exists but cannot be opened is answered like
    a missing one: 404 with the error page, for every GET. *)
Theorem unreadable_index_is_not_found (lib : Lib) (env : Env)
    (line p : string) (hs : list (string * string)) (who : string) (t : Z)
    (dir : string) (mtime : Z) (content : string) :
  stat env (posixpath.join dir "index.html")
    = RegularFile false mtime content ->
  respond lib env (GET line p hs who t dir)
  = mkServed [] (not_found lib false t).
Proof.
  intros Hfile. rewrite get_unfolds.
  unfold http_server.SimpleHTTPRequestHandler_do_GET, http_server.send_head.
  cbn [path]. rewrite translate_index. cbn [directory].
  unfold http_server.is_dir, http_server.send_file_head.
  rewrite Hfile, index_is_no_directory_name. reflexivity.
Qed.

Lemma unreadable_index_witness :
  stat Faults.odd (posixpath.join "/srv/locked" "index.html")
    = RegularFile false 1700000000 Demo.page
  /\ respond Demo.lib Faults.odd
       (GET "GET / HTTP/1.1" "/" [] "192.0.2.7" 5 "/srv/locked")
     = mkServed [] (not_found Demo.lib false 5).
Proof.
  split; [reflexivity|].
  apply (unreadable_index_is_not_found Demo.lib Faults.odd "GET / HTTP/1.1"
           "/" [] "192.0.2.7" 5 "/srv/locked" 1700000000 Demo.page).
  reflexivity.
Defined.

(** X14. When [index.html] is a directory, every GET, whatever its path,
    is answered with the redirect 301 to [/index.html] with a slash added;
    a GET of that location is rewritten to [/index.html] again and gets the
    same redirect.  (The URL path of [/index.html] is itself, which does not
    end in a slash.) *)
Theorem index_directory_redirects (lib : Lib) (env : Env)
    (line p : string) (hs : list (string * string)) (who : string) (t : Z)
    (dir : string) (listing : option (list string)) :
  stat env (posixpath.join dir "index.html") = Directory listing ->
  PyStr.endswith (urlsplit_path lib "/index.html") "/" = false ->
  respond lib env (GET line p hs who t dir)
  = mkServed [] (moved lib "/index.html" t).
Proof.
  intros Hdir Hurl. rewrite get_unfolds.
  unfold http_server.SimpleHTTPRequestHandler_do_GET, http_server.send_head.
  cbn [path]. rewrite translate_index. cbn [directory].
  unfold http_server.is_dir. rewrite Hdir, Hurl. reflexivity.
Qed.

Lemma index_directory_witness :
  stat Faults.odd (posixpath.join "/srv/nested" "index.html")
    = Directory (Some [])
  /\ PyStr.endswith (urlsplit_path Demo.lib "/index.html") "/" = false
  /\ respond Demo.lib Faults.odd
       (GET "GET /a HTTP/1.1" "/a" [] "192.0.2.7" 5 "/srv/nested")
     = mkServed [] (moved Demo.lib "/index.html" 5)
  /\ respond Demo.lib Faults.odd
       (GET "GET /index.html/ HTTP/1.1" "/index.html/" [] "192.0.2.7" 6
            "/srv/nested")
     = mkServed [] (moved Demo.lib "/index.html" 6).
Proof.
  split; [reflexivity|]. split; [reflexivity|]. split.
  - apply (index_directory_redirects Demo.lib Faults.odd "GET /a HTTP/1.1"
             "/a" [] "192.0.2.7" 5 "/srv/nested" (Some []));
      reflexivity.
  - apply (index_directory_redirects Demo.lib Faults.odd
             "GET /index.html/ HTTP/1.1" "/index.html/" [] "192.0.2.7" 6
             "/srv/nested" (Some []));
      reflexivity.
Defined.

Lemma do_prefix_eqb (cmd name : string) :
  (("do_" ++ cmd) =? ("do_" ++ name))%string = (cmd =? name)%string.
Proof. reflexivity. Qed.

(** X15. The class has [do_GET] and [do_HEAD] and no other [do_*] method:
    a request with any other method (POST, PUT, get in lower case, ...) is
    answered 501 with the error page; no file is looked at and nothing is
    logged. *)
Theorem other_methods_are_not_implemented (lib : Lib) (env : Env)
    (line cmd p : string) (hs : list (string * string)) (who : string)
    (t : Z) (dir : string) :
  cmd <> "GET"%string ->
  cmd <> "HEAD"%string ->
  respond lib env (mkHandler line cmd p hs who t dir)
  = mkServed [] (not_implemented lib cmd t).
Proof.
  intros Hget Hhead.
  unfold respond, http_server.handle_one_request.
  cbn [getattr log_message command redirect_server.StopBrowsingHandler
       http_server.SimpleHTTPRequestHandler].
  change "do_GET"%string with ("do_" ++ "GET")%string.
  change "do_HEAD"%string with ("do_" ++ "HEAD")%string.
  rewrite !do_prefix_eqb.
  apply String.eqb_neq in Hget. apply String.eqb_neq in Hhead.
  rewrite Hget, Hhead.
  unfold http_server.send_error, http_server.send_response.
  cbn [command]. rewrite Hhead. reflexivity.
Qed.

Lemma other_methods_witness :
  "POST"%string <> "GET"%string
  /\ "get"%string <> "GET"%string
  /\ respond Demo.lib Demo.env
       (mkHandler "POST / HTTP/1.1" "POST" "/" [] "192.0.2.7" 5
                  "/srv/redirect")
     = mkServed [] (not_implemented Demo.lib "POST" 5)
  /\ respond Demo.lib Demo.env
       (mkHandler "get / HTTP/1.1" "get" "/" [] "192.0.2.7" 5
                  "/srv/redirect")
     = mkServed [] (not_implemented Demo.lib "get" 5).
Proof.
  split; [discriminate|]. split; [discriminate|]. split.
  - apply (other_methods_are_not_implemented Demo.lib Demo.env
             "POST / HTTP/1.1" "POST" "/" [] "192.0.2.7" 5 "/srv/redirect");
      discriminate.
  - apply (other_methods_are_not_implemented Demo.lib Demo.env
             "get / HTTP/1.1" "get" "/" [] "192.0.2.7" 5 "/srv/redirect");
      discriminate.
Defined.



(** X17. HEAD and GET differ in the body alone: a HEAD reply never has a
    body, and the status line and headers that HEAD of [/index.html] gets
    are those every GET gets, whatever the state of the directory. *)
Theorem head_of_index_matches_get (lib : Lib) (env : Env)
    (line line' p q : string) (hs : list (string * string))
    (who who' : string) (t : Z) (dir : string) :
  body (reply (respond lib env (HEAD line q hs who t dir))) = ""%string
  /\ head_of (reply (respond lib env
                       (HEAD line "/index.html" hs who t dir)))
     = head_of (reply (respond lib env (GET line' p hs who' t dir))).
Proof.
  split; [apply head_reply_is_bare|].
  rewrite head_dispatch, get_unfolds.
  unfold http_server.SimpleHTTPRequestHandler_do_HEAD,
    http_server.SimpleHTTPRequestHandler_do_GET, HEAD.
  destruct (send_head_ignores_command lib env line line' "HEAD" "GET"
              "/index.html" hs who who' t dir) as [Hhead Hfile].
  rewrite Hhead.
  destruct (http_server.send_head lib env
              redirect_server.StopBrowsingHandler_log_message
              (mkHandler line' "GET" "/index.html" hs who' t dir))
    as [sent [f|]]; reflexivity.
Qed.
